(** * django-extensions mixins: a shallow embedding and its properties

    The development follows the layout of the package:
    - [Py]          the fragment of the Python runtime the code relies on
                    (exceptions, values, objects with attributes, [sorted]);
    - [Django]      the host framework's data the mixins touch ([QueryDict],
                    [urlencode], the messages store, lazy query sets);
    - [UrlTools]    [templatetags/url_tools.py];
    - [AuthMixins]  [auth/mixins.py];
    - [ViewsMixins] [views/mixins.py].
    The definitions the properties are stated with ([Descriptions]) and
    the data of the examples follow, then the properties, one module per
    part of the package.

    Exceptions are modelled where the source raises or handles them
    ([int], [getattr], [queryset.get], the action function, a missing
    method the source tests for) and where a call of the framework can
    fail on what the request posts or on what the view lacks:
    [queryset.filter(pk__in=...)] in [response_action], and
    [get_object()], [get_queryset()] and [first()] in [test_func], whose
    mixin has no [get_queryset] of its own.  The [get_queryset()] of the
    views of views/mixins.py, which their base classes define, is
    modelled by the value it returns. *)

From Stdlib Require Import ZArith String Ascii List Sorted Permutation OrderedTypeEx DecimalString.
From stdpp Require Import gmap strings list sorting.

Set Warnings "-register-all".
Open Scope string_scope.
Open Scope Z_scope.

(* ===================================================================== *)
(** * The Python runtime fragment                                          *)
(* ===================================================================== *)
Module Py.

(** Exceptions raised by the modelled code.  A constructor carries the
    message where the source builds one. *)
Inductive exn : Type :=
| TypeError
| ValueError
| IndexError
| KeyError (key : string)
| AttributeError (msg : string)
| UnboundLocalError (name : string)
| ValidationError
| DoesNotExist
| MultipleObjectsReturned
| Http404 (msg : string)
| ActionException (msg : string)
| OtherException (cls : string).

(** The outcome of evaluating an expression or a call. *)
Inductive result (A : Type) : Type :=
| Ok (a : A)
| Raise (e : exn).
Arguments Ok {A} a.
Arguments Raise {A} e.

(** Sequencing: an exception skips the rest ([x ← c; k] below). *)
#[export] Instance result_bind : MBind result := fun A B k r =>
  match r with
  | Ok a => k a
  | Raise e => Raise e
  end.

(** [try: c  except cls: h] for one handler that matches by class. *)
Definition try_except {A} (c : result A) (catches : exn -> bool) (h : exn -> result A)
  : result A :=
  match c with
  | Ok a => Ok a
  | Raise e => if catches e then h e else Raise e
  end.

Definition is_TypeError (e : exn) : bool :=
  match e with TypeError => true | _ => false end.

(** [isinstance(e, NameError)]: [UnboundLocalError] is the only subclass of
    [NameError] the modelled code can raise. *)
Definition is_NameError (e : exn) : bool :=
  match e with UnboundLocalError _ => true | _ => false end.

(** Objects live in a heap and are named by their address. *)
Abbreviation loc := positive.

Inductive pyval : Type :=
| VNone
| VBool (b : bool)
| VInt (z : Z)
| VStr (s : string)
| VList (l : list pyval)
| VRef (l : loc).
Arguments VRef l%_positive.

Definition is_none (v : pyval) : bool :=
  match v with VNone => true | _ => false end.

(** Truth value testing.  An object without [__bool__] and [__len__]
    (a model instance, a function) is true. *)
Definition truthy (v : pyval) : bool :=
  match v with
  | VNone => false
  | VBool b => b
  | VInt z => negb (z =? 0)
  | VStr s => negb (String.eqb s "")
  | VList l => match l with [] => false | _ => true end
  | VRef _ => true
  end.

(** The heap maps an object to its attribute dictionary. *)
Abbreviation heap := (gmap loc (gmap string pyval)).

Definition attrs_of (h : heap) (l : loc) : gmap string pyval :=
  default ∅ (h !! l).

(** [getattr(v, name)].  Only heap objects carry the attributes the code
    reads; on any other value the lookup raises. *)
Definition getattr (h : heap) (v : pyval) (name : string) : result pyval :=
  match v with
  | VRef l =>
      match attrs_of h l !! name with
      | Some a => Ok a
      | None => Raise (AttributeError name)
      end
  | _ => Raise (AttributeError name)
  end.

(** [getattr(v, name, dflt)]. *)
Definition getattr_default (h : heap) (v : pyval) (name : string) (dflt : pyval) : pyval :=
  match getattr h v name with
  | Ok a => a
  | Raise _ => dflt
  end.

(** [obj.name = v] on a heap object. *)
Definition setattr (l : loc) (name : string) (v : pyval) (h : heap) : heap :=
  <[l := <[name := v]> (attrs_of h l)]> h.

(** ** [sorted]

    [sorted(l, key=...)] is stable: elements with equal keys keep their
    order.  [le x y] is [key(x) <= key(y)]. *)
Section Sorted.
Context {A : Type} (le : A -> A -> bool).

Fixpoint insert_sorted (x : A) (l : list A) : list A :=
  match l with
  | [] => [x]
  | y :: l' => if le x y then x :: y :: l' else y :: insert_sorted x l'
  end.

Definition sorted (l : list A) : list A := foldr insert_sorted [] l.

End Sorted.

(** [int(s)] on text made of ASCII characters: surrounding white space,
    an optional sign, decimal digits, single underscores between digits.
    [None] stands for [ValueError]. *)
Definition is_space (c : ascii) : bool :=
  let n := N_of_ascii c in
  ((9 <=? n) && (n <=? 13) || (28 <=? n) && (n <=? 32))%N.

Definition digit_of (c : ascii) : option Z :=
  let n := N_of_ascii c in
  if ((48 <=? n) && (n <=? 57))%N then Some (Z.of_N n - 48) else None.

Fixpoint lstrip (s : string) : string :=
  match s with
  | String c s' => if is_space c then lstrip s' else s
  | EmptyString => EmptyString
  end.

(** Drops trailing white space. *)
Fixpoint rstrip (s : string) : string :=
  match s with
  | EmptyString => EmptyString
  | String c s' =>
      match rstrip s' with
      | EmptyString => if is_space c then EmptyString else String c EmptyString
      | r => String c r
      end
  end.

(** [digits acc after_digit s]: the digits of [s] appended to [acc]; an
    underscore is accepted only right after a digit and right before one. *)
Fixpoint digits (acc : Z) (after_digit : bool) (s : string) : option Z :=
  match s with
  | EmptyString => if after_digit then Some acc else None
  | String c s' =>
      match digit_of c with
      | Some d => digits (10 * acc + d) true s'
      | None =>
          if Ascii.eqb c "_"%char && after_digit
          then match s' with
               | String c' _ =>
                   match digit_of c' with
                   | Some _ => digits acc false s'
                   | None => None
                   end
               | EmptyString => None
               end
          else None
      end
  end.

Definition int_of_ascii (s : string) : option Z :=
  match lstrip (rstrip s) with
  | String "-"%char s' => Z.opp <$> digits 0 false s'
  | String "+"%char s' => digits 0 false s'
  | s' => digits 0 false s'
  end.

End Py.

(* ===================================================================== *)
(** * The host framework                                                   *)
(* ===================================================================== *)
Module Django.
Import Py.

(** ** Insertion-ordered dictionaries with string keys

    A Python [dict] keeps its keys in insertion order; assigning to a key
    that is present keeps its position. *)
Section Dict.
Context {V : Type}.

Fixpoint dict_get (d : list (string * V)) (k : string) : option V :=
  match d with
  | [] => None
  | (k', v) :: d' => if String.eqb k' k then Some v else dict_get d' k
  end.

Definition dict_contains (d : list (string * V)) (k : string) : bool :=
  match dict_get d k with Some _ => true | None => false end.

Fixpoint dict_set (d : list (string * V)) (k : string) (v : V) : list (string * V) :=
  match d with
  | [] => [(k, v)]
  | (k', v') :: d' =>
      if String.eqb k' k then (k', v) :: d' else (k', v') :: dict_set d' k v
  end.

Definition dict_del (d : list (string * V)) (k : string) : list (string * V) :=
  filter (fun kv => kv.1 <> k) d.

End Dict.

(** ** [QueryDict] (a [MultiValueDict]): every key holds a list of values. *)
Definition QueryDict := list (string * list pyval).

(** [MultiValueDict.appendlist]. *)
Definition appendlist (d : QueryDict) (k : string) (v : pyval) : QueryDict :=
  dict_set d k (default [] (dict_get d k) ++ [v])%list.

(** [QueryDict(query_string)]: the pairs of the query string, appended in
    order; every value is text. *)
Definition QueryDict_of_pairs (pairs : list (string * string)) : QueryDict :=
  foldl (fun d kv => appendlist d kv.1 (VStr kv.2)) [] pairs.

(** The value [d[k]] shows for a stored list: its last element, or the
    empty list when the stored list is empty. *)
Definition last_value (l : list pyval) : pyval := default (VList []) (last l).

(** [d[k]]. *)
Definition getitem (d : QueryDict) (k : string) : result pyval :=
  match dict_get d k with
  | Some l => Ok (last_value l)
  | None => Raise (KeyError k)
  end.

(** [d.get(k, dflt)]: [dflt] also stands in for an empty stored list. *)
Definition get (d : QueryDict) (k : string) (dflt : pyval) : pyval :=
  match getitem d k with
  | Ok (VList []) => dflt
  | Ok v => v
  | Raise _ => dflt
  end.

(** [d.getlist(k)]. *)
Definition getlist (d : QueryDict) (k : string) : list pyval :=
  default [] (dict_get d k).

(** [d.copy()]: the copy shares nothing with [d]. *)
Definition copy (d : QueryDict) : QueryDict := d.

(** [d[k] = v] stores the one-element list. *)
Definition setitem (d : QueryDict) (k : string) (v : pyval) : QueryDict :=
  dict_set d k [v].

(** [del d[k]], used under the guard [k in d]. *)
Definition delitem (d : QueryDict) (k : string) : QueryDict := dict_del d k.

(** [d.pop(k, None)], its result dropped. *)
Definition pop (d : QueryDict) (k : string) : QueryDict := dict_del d k.

(** [d.items()]: each key with the value [d[k]]. *)
Definition items (d : QueryDict) : list (string * pyval) :=
  map (fun kv => (kv.1, last_value kv.2)) d.

(** ** Requests *)
Record HttpRequest : Type := {
  GET_pairs : list (string * string);
  POST_pairs : list (string * string);
  user : pyval;
  full_path : string
}.

Definition GET (r : HttpRequest) : QueryDict := QueryDict_of_pairs (GET_pairs r).
Definition POST (r : HttpRequest) : QueryDict := QueryDict_of_pairs (POST_pairs r).

(** ** [urllib.parse.quote_plus] on UTF-8 text *)
Definition is_unreserved (c : ascii) : bool :=
  let n := N_of_ascii c in
  ((48 <=? n) && (n <=? 57) || (65 <=? n) && (n <=? 90) || (97 <=? n) && (n <=? 122)
   || (n =? 95) || (n =? 46) || (n =? 45) || (n =? 126))%N.

Definition hex_digit (n : N) : ascii :=
  ascii_of_N (if (n <? 10)%N then 48 + n else 55 + n).

Definition quote_plus_char (c : ascii) : string :=
  if is_unreserved c then String c EmptyString
  else if Ascii.eqb c " "%char then "+"
  else let n := N_of_ascii c in
       String "%"%char (String (hex_digit (n / 16)) (String (hex_digit (n mod 16)) EmptyString)).

Fixpoint quote_plus (s : string) : string :=
  match s with
  | EmptyString => EmptyString
  | String c s' => quote_plus_char c +:+ quote_plus s'
  end.

(** ** [django.utils.http.urlencode] on a list of pairs ([doseq] off) *)
Fixpoint check_no_none (query : list (string * pyval)) : result (list (string * pyval)) :=
  match query with
  | [] => Ok []
  | (k, v) :: q =>
      if is_none v then Raise TypeError
      else q' ← check_no_none q; Ok ((k, v) :: q')
  end.

Fixpoint join (sep : string) (l : list string) : string :=
  match l with
  | [] => ""
  | [x] => x
  | x :: l' => x +:+ sep +:+ join sep l'
  end.

Section Urlencode.
(** [str(v)]. *)
Variable py_str : pyval -> string.

Definition encode_pair (kv : string * pyval) : string :=
  quote_plus kv.1 +:+ "=" +:+ quote_plus (py_str kv.2).

Definition urlencode (query : list (string * pyval)) : result string :=
  query_params ← check_no_none query;
  Ok (join "&" (map encode_pair query_params)).

End Urlencode.

(** ** [helpers.ActionForm]

    The form has a required choice field [action] and an optional boolean
    field [select_across] behind a hidden input.  Bound to [data], with
    the choices of [action] set, it is valid when the posted action is not
    empty and is one of the choices; it then cleans to the pair below. *)
Definition ascii_lower (c : ascii) : ascii :=
  let n := N_of_ascii c in
  if ((65 <=? n) && (n <=? 90))%N then ascii_of_N (n + 32) else c.

Fixpoint lower (s : string) : string :=
  match s with
  | EmptyString => EmptyString
  | String c s' => String (ascii_lower c) (lower s')
  end.

(** [BooleanField.to_python]. *)
Definition to_python_bool (v : pyval) : bool :=
  match v with
  | VStr s =>
      if String.eqb (lower s) "false" || String.eqb (lower s) "0" then false
      else truthy v
  | _ => truthy v
  end.

(** [ChoiceField.clean] for a required field. *)
Definition clean_choice (v : pyval) (choices : list (string * string)) : option string :=
  match v with
  | VStr s =>
      if negb (String.eqb s "") && bool_decide (s ∈ choices.*1) then Some s else None
  | _ => None
  end.

Definition ActionForm (data : QueryDict) (choices : list (string * string))
  : option (string * bool) :=
  match clean_choice (get data "action" VNone) choices with
  | Some a => Some (a, to_python_bool (get data "select_across" VNone))
  | None => None
  end.

(** ** The messages store *)
Inductive level : Type := WARNING | ERROR.

Definition message : Type := level * string.

(** ** Query sets

    A query set is a lazy description of a query; a filter that was built
    is a new description, [QFilter], and building it does not touch the
    database.  Building it can fail (see [QuerySet_filter] in
    views/mixins.py). *)
Inductive QuerySet : Type :=
| QAll (model : string)
| QFilter (lookup : string) (values : list pyval) (q : QuerySet).

(** What evaluating a query set yields. *)
Record Database : Type := {
  (** [q.get(field=value)], the field given by name *)
  db_get : QuerySet -> string -> pyval -> result pyval;
  (** [bool(q)] *)
  db_bool : QuerySet -> bool;
  (** [q.first()]: the first object, or [None]; the query runs, and can
      fail *)
  db_first : QuerySet -> result pyval;
  (** [q.model._meta.verbose_name] *)
  verbose_name : QuerySet -> string
}.

End Django.

(* ===================================================================== *)
(** * templatetags/url_tools.py                                            *)
(* ===================================================================== *)
Module UrlTools.
Import Py Django.

(** The order [sorted] puts the [(key, value)] tuples of a dictionary in:
    keys are pairwise distinct, so the comparison of two tuples is decided
    by their keys, compared as text. *)
Definition item_le (a b : string * pyval) : bool := String.leb a.1 b.1.

(** One turn of the loop over [params.items()]. *)
Definition apply_param (p : QueryDict) (kv : string * pyval) : QueryDict :=
  let '(k, v) := kv in
  if is_none v then
    if dict_contains p k then delitem p k else p
  else setitem p k v.

Section BuildQueryString.
Variable py_str : pyval -> string.

(** [request] is [None] for a false value in the template context; the
    loop then starts from an empty [dict], which keeps a key's one value
    as the one-element list of a [QueryDict] does.  [params] is the
    dictionary of the keyword arguments, in the order they were given
    ([params or {}] is [params]). *)
Definition build_query_string (request : option HttpRequest)
    (params : list (string * pyval)) : result string :=
  let p := match request with Some r => copy (GET r) | None => [] end in
  let p := foldl apply_param p params in
  urlencode py_str (sorted item_le (items p)).

End BuildQueryString.

End UrlTools.

(* ===================================================================== *)
(** * auth/mixins.py                                                       *)
(* ===================================================================== *)
Module AuthMixins.
Import Py Django.

(** A view instance as [ModelUserFieldPermissionMixin] sees it. *)
Record View : Type := {
  request : HttpRequest;
  model_permission_user_field : string;
  (** the instance attribute [object], when it is set *)
  object_attr : option pyval;
  (** what [get_object()] does, when the view's class has the method *)
  get_object : option (result pyval);
  (** what [get_queryset()] does, when the view's class has the method;
      the mixin and its base class define none *)
  get_queryset : option (result QuerySet)
}.

(** The class attribute's value. *)
Definition default_model_permission_user_field : string := "user".

Definition get_model_permission_user_field (self : View) : string :=
  model_permission_user_field self.

(** Reading a local variable: [None] is a variable no assignment reached. *)
Definition read_local (name : string) (slot : option pyval) : result pyval :=
  match slot with
  | Some v => Ok v
  | None => Raise (UnboundLocalError name)
  end.

Section TestFunc.
(** [a == b], as the objects' [__eq__] decides it. *)
Variable py_eq : pyval -> pyval -> bool.
Variable db : Database.
Variable h : heap.

Definition test_func (self : View) : result bool :=
  let model_attr := get_model_permission_user_field self in
  let current_user := user (request self) in
  (* the local variable [object] after the if / elif / else *)
  object ←
    (if truthy (default VNone (object_attr self)) then Ok (object_attr self)
     else
       match get_object self with
       | Some call => o ← call; Ok (Some o)
       | None =>
           match get_queryset self with
           | Some call => q ← call; _ ← db_first db q; Ok None
           | None => Raise (AttributeError "get_queryset")
           end
       end);
  o ← read_local "object" object;
  a ← getattr h o model_attr;
  Ok (py_eq current_user a).

End TestFunc.

End AuthMixins.

(* ===================================================================== *)
(** * views/mixins.py                                                      *)
(* ===================================================================== *)
Module ViewsMixins.
Import Py Django.

(** ** The [action] decorator

    A function is a heap object; the decorator writes attributes on it. *)
Definition decorator (permissions description allow_select_across : pyval)
    (func : loc) (h : heap) : loc * heap :=
  let h := if is_none permissions then h
           else setattr func "allowed_permissions" permissions h in
  let h := if is_none description then h
           else setattr func "short_description" description h in
  let h := setattr func "allow_select_across" allow_select_across h in
  (func, h).

(** What [action(...)] returns: the decorator, or the decorated function. *)
Inductive action_result : Type :=
| Decorator (d : loc -> heap -> loc * heap)
| Function (f : loc).

Definition action (function : option loc)
    (permissions description allow_select_across : pyval) (h : heap)
  : action_result * heap :=
  match function with
  | None => (Decorator (decorator permissions description allow_select_across), h)
  | Some f =>
      let '(f', h') := decorator permissions description allow_select_across f h in
      (Function f', h')
  end.

(** [@action] with no argument list: every keyword takes its default. *)
Definition action_bare (f : loc) (h : heap) : action_result * heap :=
  action (Some f) VNone VNone (VBool false) h.

(** ** View instances *)

(** An entry of [actions]: a callable (with its [__name__]) or the name of
    a method of the view's class. *)
Inductive action_entry : Type :=
| ACallable (f : loc) (name : string)
| AName (name : string).

(** [(func, name, description)]. *)
Definition action_tuple : Type := loc * string * string.

Inductive HttpResponse : Type :=
| HttpResponseRedirect (url : string)
| HttpResponseOther (content : string).

(** What an action function hands back: a response, or some other value. *)
Inductive returned : Type :=
| Response (r : HttpResponse)
| Value (v : pyval).

(** The attributes of a view the mixins read. *)
Record View : Type := {
  request : HttpRequest;
  (** the URL keyword arguments *)
  kwargs : list (string * pyval);
  (** set by [setup]: [dict(request.GET.items())] *)
  params : list (string * pyval);
  (** [SelectActionMixin] *)
  actions : option (list action_entry);
  (** the functions the view's class binds, by name *)
  class_functions : list (string * loc);
  (** [self.action_form(data, auto_id=None)] with the choices of its
      [action] field set: the cleaned [action] and [select_across] when
      the form is valid *)
  action_form : QueryDict -> list (string * string) -> option (string * bool);
  action_selection_max : option Z;
  (** [AdjustablePaginationMixin] *)
  pagination_choices : list Z;
  pagination_param : string;
  (** [MultipleLookupMixin] *)
  lookup_fields : list string;
  lookup_url_kwarg : option string;
  get_queryset : QuerySet
}.

(** [setup]: the instance keeps a copy of the GET parameters. *)
Definition setup (self : View) (r : HttpRequest) : View :=
  {| request := r;
     kwargs := kwargs self;
     params := items (GET r);
     actions := actions self;
     class_functions := class_functions self;
     action_form := action_form self;
     action_selection_max := action_selection_max self;
     pagination_choices := pagination_choices self;
     pagination_param := pagination_param self;
     lookup_fields := lookup_fields self;
     lookup_url_kwarg := lookup_url_kwarg self;
     get_queryset := get_queryset self |}.

(** The class attributes' values. *)
Definition default_pagination_choices : list Z := [25; 50; 100; 200].
Definition default_pagination_param : string := "paginate_by".

(** What the mixins change: the heap, the messages recorded on the request,
    and the calls made to action functions. *)
Record world : Type := {
  w_heap : heap;
  w_messages : list message;
  w_calls : list (loc * QuerySet)
}.

Definition add_message (lv : level) (msg : string) (w : world) : world :=
  {| w_heap := w_heap w;
     w_messages := (w_messages w ++ [(lv, msg)])%list;
     w_calls := w_calls w |}.

Definition record_call (f : loc) (q : QuerySet) (w : world) : world :=
  {| w_heap := w_heap w;
     w_messages := w_messages w;
     w_calls := (w_calls w ++ [(f, q)])%list |}.

(** [helpers.ACTION_CHECKBOX_NAME] *)
Definition ACTION_CHECKBOX_NAME : string := "_selected_action".

(** [models.BLANK_CHOICE_DASH] *)
Definition BLANK_CHOICE_DASH : list (string * string) := [("", "---------")].

(** [str(n)] for an integer, as ["%(num)i"] prints it. *)
Definition str_of_Z (z : Z) : string :=
  DecimalString.NilZero.string_of_int (Z.to_int z).

Definition msg_nothing_selected : string :=
  "Items must be selected in order to perform actions on them. No items have been changed.".
Definition msg_selection_max (num : Z) : string :=
  "Only a maximum of " +:+ str_of_Z num +:+ " items can be selected at a time.".
Definition msg_discrete_selection : string :=
  "This action requires a discrete selection of items, not all of them.".
Definition msg_no_action : string := "No action selected.".

Section Mixins.
(** The framework's functions the mixins bind or call, each applied to the
    view instance it is called on. *)
Variable ChangeList_get_query_string :
  View -> option (list (string * pyval)) -> option (list string) -> result string.
Variable ChangeList_get_filters_params :
  View -> option (list (string * pyval)) -> result (list (string * pyval)).
Variable ModelAdmin_filter_actions_by_permissions :
  View -> HttpRequest -> list action_tuple -> list action_tuple.
Variable ModelAdmin_get_action_description : heap -> loc -> string -> string.
(** [description % model_format_dict(opts)] *)
Variable format_description : string -> string.
(** [func(self, request, queryset)] *)
Variable call_action : loc -> View -> HttpRequest -> QuerySet -> result returned.
(** [queryset.filter(lookup=values)]: the new query set, or the exception
    of a value the lookup's field does not accept *)
Variable QuerySet_filter : QuerySet -> string -> list pyval -> result QuerySet.
(** [int(s)] on text; [None] stands for [ValueError]. *)
Variable py_int : string -> option Z.
Variable db : Database.

(** *** [SelectActionMixin] *)

(** The class body's bindings. *)
Definition SelectActionMixin_get_query_string := ChangeList_get_query_string.
Definition SelectActionMixin_filter_actions_by_permissions :=
  ModelAdmin_filter_actions_by_permissions.

Definition get_action (self : View) (h : heap) (a : action_entry) : option action_tuple :=
  match (match a with
         | ACallable f name => Some (f, name)
         | AName name =>
             match dict_get (class_functions self) name with
             | Some f => Some (f, name)
             | None => None
             end
         end) with
  | Some (func, name) => Some (func, name, ModelAdmin_get_action_description h func name)
  | None => None
  end.

Definition _get_base_actions (self : View) (h : heap) : list action_tuple :=
  omap (get_action self h) (default [] (actions self)).

(** The dictionary [{name: (func, name, desc)}]: a later tuple with the
    name of an earlier one replaces it, in the earlier one's place. *)
Definition get_actions (self : View) (h : heap) (request : HttpRequest)
  : list (string * action_tuple) :=
  match actions self with
  | None => []
  | Some _ =>
      let acts := SelectActionMixin_filter_actions_by_permissions self request
                    (_get_base_actions self h) in
      foldl (fun d t => dict_set d t.1.2 t) [] acts
  end.

Definition get_action_choices (self : View) (h : heap) (request : HttpRequest)
  : list (string * string) :=
  (BLANK_CHOICE_DASH ++
   map (fun kt => (kt.2.1.2, format_description kt.2.2)) (get_actions self h request))%list.

Definition get_action_form_url (self : View) (request : HttpRequest) : result string :=
  SelectActionMixin_get_query_string self None None.

Definition can_select_across (h : heap) (request : HttpRequest) (action : loc) : pyval :=
  getattr_default h (VRef action) "allow_select_across" (VBool false).

Definition handle_action_finished (request : HttpRequest) : HttpResponse :=
  HttpResponseRedirect (full_path request).

(** The end of [response_action]: the call of the action function, under
    the handler for [ActionException], and the response that follows. *)
Definition perform_action (func : loc) (self : View) (request : HttpRequest)
    (queryset : QuerySet) (w : world) : result (option HttpResponse) * world :=
  let w := record_call func queryset w in
  match call_action func self request queryset with
  | Ok (Response r) => (Ok (Some r), w)
  | Ok (Value _) => (Ok (Some (handle_action_finished request)), w)
  | Raise (ActionException e) =>
      (Ok (Some (handle_action_finished request)), add_message ERROR e w)
  | Raise e => (Raise e, w)
  end.

(** The test of the selection cap; it yields the cap when the selection
    is over it. *)
Definition over_selection_max (self : View) (select_across : bool)
    (selected : list pyval) : option Z :=
  if negb select_across then
    match action_selection_max self with
    | Some m => if Z.of_nat (length selected) >? m then Some m else None
    | None => None
    end
  else None.

Definition response_action (self : View) (request : HttpRequest) (queryset : QuerySet)
    (w : world) : result (option HttpResponse) * world :=
  let data := copy (POST request) in
  let data := pop data ACTION_CHECKBOX_NAME in
  let data := pop data "index" in
  let choices := get_action_choices self (w_heap w) request in
  match action_form self data choices with
  | Some (action, select_across) =>
      match dict_get (get_actions self (w_heap w) request) action with
      | None => (Raise (KeyError action), w)
      | Some (func, _, _) =>
          let selected := getlist (POST request) ACTION_CHECKBOX_NAME in
          if negb (truthy (VList selected)) && negb select_across then
            (Ok None, add_message WARNING msg_nothing_selected w)
          else
          match over_selection_max self select_across selected with
          | Some num => (Ok None, add_message ERROR (msg_selection_max num) w)
          | None =>
            (* the query set the action runs on, if it may run *)
            match (if negb select_across then
                     q ← QuerySet_filter queryset "pk__in" selected; Ok (Some q)
                   else if negb (truthy (can_select_across (w_heap w) request func)) then
                     Ok None
                   else Ok (Some queryset)) with
            | Raise e => (Raise e, w)
            | Ok None => (Ok None, add_message ERROR msg_discrete_selection w)
            | Ok (Some queryset) => perform_action func self request queryset w
            end
          end
      end
  | None => (Ok None, add_message WARNING msg_no_action w)
  end.

(** *** [ListFilterMixin] *)
Definition ListFilterMixin_get_query_string := ChangeList_get_query_string.
Definition ListFilterMixin_get_filters_params := ChangeList_get_filters_params.

(** *** [AdjustablePaginationMixin] *)
Definition AdjustablePaginationMixin_get_query_string := ChangeList_get_query_string.

(** [int(v)]. *)
Definition int_ (v : pyval) : result Z :=
  match v with
  | VInt z => Ok z
  | VBool b => Ok (if b then 1 else 0)
  | VStr s => match py_int s with Some z => Ok z | None => Raise ValueError end
  | _ => Raise TypeError
  end.

Definition get_paginate_by (self : View) : result Z :=
  param ← try_except
            (int_ (get (GET (request self)) (pagination_param self) (VInt 0)))
            is_TypeError (fun _ => Ok 0);
  let choices := map (fun i => (Z.abs (i - param), i)) (pagination_choices self) in
  match sorted (fun x y => x.1 <=? y.1) choices with
  | choice :: _ => Ok choice.2
  | [] => Raise IndexError
  end.

Definition get_pagination_form_url (self : View) (request : HttpRequest) : result string :=
  AdjustablePaginationMixin_get_query_string self None (Some [pagination_param self]).

(** *** [MultipleLookupMixin] *)
Definition lookup_failed (e : exn) : bool :=
  match e with
  | ValueError | ValidationError | DoesNotExist => true
  | _ => false
  end.

Definition msg_not_found (verbose_name : string) : string :=
  "No " +:+ verbose_name +:+ " found matching the query".

(** The [for i, field in enumerate(...)] loop from index [i] on; [n] is
    [len(self.lookup_fields)].  Leaving the loop returns [None]. *)
Fixpoint lookup_loop (queryset : QuerySet) (value : pyval) (verbose_name : string)
    (n : Z) (i : Z) (fields : list string) : result pyval :=
  match fields with
  | [] => Ok VNone
  | field :: rest =>
      match db_get db queryset field value with
      | Ok o => Ok o
      | Raise e =>
          if lookup_failed e then
            if i =? n - 1 then Raise (Http404 (msg_not_found verbose_name))
            else lookup_loop queryset value verbose_name n (i + 1) rest
          else Raise e
      end
  end.

Definition get_object (self : View) (queryset : option QuerySet) : result pyval :=
  if Z.of_nat (length (lookup_fields self)) =? 0 then
    Raise (AttributeError "'lookup_fields' cannot be empty")
  else if negb (truthy (from_option VStr VNone (lookup_url_kwarg self))) then
    Raise (AttributeError "'lookup_url_kwarg' must be specified")
  else
    let queryset := match queryset with
                    | Some q => if db_bool db q then q else get_queryset self
                    | None => get_queryset self
                    end in
    let value := default VNone
                   (dict_get (kwargs self) (default "" (lookup_url_kwarg self))) in
    lookup_loop queryset value (verbose_name db queryset)
      (Z.of_nat (length (lookup_fields self))) 0 (lookup_fields self).

End Mixins.

End ViewsMixins.

(* ===================================================================== *)
(** * views/mixins.py, the methods around the ones above                   *)
(* ===================================================================== *)
Module ViewsMixinsRest.
Import Py Django ViewsMixins.

(** ** [SelectActionMixin.post] *)
Section Post.
Variable ModelAdmin_filter_actions_by_permissions :
  View -> HttpRequest -> list action_tuple -> list action_tuple.
Variable ModelAdmin_get_action_description : heap -> loc -> string -> string.
Variable format_description : string -> string.
Variable call_action : loc -> View -> HttpRequest -> QuerySet -> result returned.
Variable QuerySet_filter : QuerySet -> string -> list pyval -> result QuerySet.
(** [super().post], when the next class has the method. *)
Variable super_post :
  option (HttpRequest -> world -> result (option HttpResponse) * world).

Definition post (self : View) (request : HttpRequest) (w : world)
  : result (option HttpResponse) * world :=
  (* what the first [if] returns, if it returns *)
  let '(early, w) :=
    if dict_contains (POST request) "action" then
      let queryset := get_queryset self in
      match response_action ModelAdmin_filter_actions_by_permissions
              ModelAdmin_get_action_description format_description call_action
              QuerySet_filter self request queryset w with
      | (Ok (Some response), w') => (Some (Ok (Some response)), w')
      | (Ok None, w') => (None, w')
      | (Raise e, w') => (Some (Raise e), w')
      end
    else (None, w) in
  match early with
  | Some r => (r, w)
  | None =>
      match super_post with
      | Some next => next request w
      | None => (Ok None, w)
      end
  end.

End Post.

(** ** [ListFilterMixin.has_active_filters] *)

(** A filter specification, as far as [has_active_filters] uses it:
    what its [expected_parameters()] returns. *)
Record FilterSpec : Type := {
  expected_parameters : list string
}.

(** [x in it] on an iterator: the items are drawn until one equals [x];
    the iterator keeps what follows, and is left empty by a failed search. *)
Fixpoint iter_contains (x : string) (it : list string) : bool * list string :=
  match it with
  | [] => (false, [])
  | y :: it' => if String.eqb y x then (true, it') else iter_contains x it'
  end.

(** The list comprehension [[param in filter_params for param in params]]
    over one shared iterator. *)
Definition membership_tests (keys : list string) (filter_params : list string)
  : list bool * list string :=
  foldl (fun st param =>
           let '(b, it) := iter_contains param st.2 in ((st.1 ++ [b])%list, it))
        ([], filter_params) keys.

(** [filter_specs] is what [self.get_filter_specs()] returns. *)
Definition has_active_filters (filter_specs : list FilterSpec) (self : View) : bool :=
  let filter_params := concat (map expected_parameters filter_specs) in
  existsb id (membership_tests (map fst (params self)) filter_params).1.

(** ** [AdjustablePaginationMixin]: the form *)
Definition get_pagination_choices (self : View) : list (Z * string) :=
  sorted (fun x y => x.1 <=? y.1) (map (fun i => (i, str_of_Z i)) (pagination_choices self)).

(** The field [paginate_by] of the form, by the arguments it is built with. *)
Record ChoiceField : Type := {
  label : string;
  choices : list (Z * string);
  initial : Z;
  required : bool
}.

Record PaginationForm : Type := {
  template_name : string;
  paginate_by : ChoiceField
}.

Section PaginationForm.
Variable py_int : string -> option Z.
(** [self.pagination_form_template] *)
Variable pagination_form_template : string.

Definition get_pagination_form (self : View) : result PaginationForm :=
  let field_choices := get_pagination_choices self in
  field_initial ← get_paginate_by py_int self;
  Ok {| template_name := pagination_form_template;
        paginate_by := {| label := "Paginate by";
                          choices := field_choices;
                          initial := field_initial;
                          required := false |} |}.

End PaginationForm.

End ViewsMixinsRest.

(* ===================================================================== *)
(** * The vocabulary of the properties                                    *)
(* ===================================================================== *)
Module Descriptions.
Import Py Django UrlTools ViewsMixins.

(** The values a key has in a query string, in order. *)
Definition values_of (pairs : list (string * string)) (k : string) : list pyval :=
  (VStr ∘ snd) <$> filter (fun kv => kv.1 = k) pairs.

(** The value of a GET parameter: the last one the query string gives it. *)
Definition param_value (pairs : list (string * string)) (k : string) : option string :=
  snd <$> last (filter (fun kv => kv.1 = k) pairs).

(** The requested page size: the integer the ['paginate_by'] GET parameter
    parses as, 0 when the parameter is absent, nothing when its text is no
    integer. *)
Definition requested_page_size (py_int : string -> option Z) (self : View) : option Z :=
  match param_value (GET_pairs (request self)) (pagination_param self) with
  | Some s => py_int s
  | None => Some 0
  end.

(** The parameters as the description of the tag gives them: the
    request's GET parameters, changed by each keyword parameter in turn; a
    [None] value deletes the key, any other value is set. *)
Definition merge_param (m : string -> option pyval) (kv : string * pyval)
  : string -> option pyval :=
  fun x => if decide (x = kv.1)
           then (if is_none kv.2 then None else Some kv.2)
           else m x.

Definition request_params (request : option HttpRequest) : string -> option pyval :=
  match request with
  | Some r => fun k => VStr <$> param_value (GET_pairs r) k
  | None => fun _ => None
  end.

Definition merged_params (request : option HttpRequest) (params : list (string * pyval))
  : string -> option pyval :=
  foldl merge_param (request_params request) params.

(** What [d.items()] shows for a key. *)
Definition shown (d : QueryDict) (k : string) : option pyval :=
  last_value <$> dict_get d k.

(** The dictionary the loop works on has distinct keys and holds no [None]. *)
Definition well_formed (d : QueryDict) : Prop :=
  NoDup d.*1 /\ Forall (fun kl => Forall (fun v => is_none v = false) kl.2) d.

(** The names the decorator may write. *)
Definition metadata_names : list string :=
  ["allowed_permissions"; "short_description"; "allow_select_across"].

(** The lookup as the mixin is described: the fields are tried in list
    order, the first successful match is returned, an attempt that fails
    with [ValueError], [ValidationError] or [DoesNotExist] moves on to the
    next field, and [Http404] is raised when none is left. *)
Fixpoint first_match (attempt : string -> result pyval) (not_found : exn)
    (fields : list string) : result pyval :=
  match fields with
  | [] => Raise not_found
  | field :: rest =>
      match attempt field with
      | Ok o => Ok o
      | Raise e => if lookup_failed e then first_match attempt not_found rest else Raise e
      end
  end.


(** The query set the lookup runs on: the argument unless it is absent or
    false, [self.get_queryset()] then. *)
Definition lookup_queryset (db : Database) (self : View) (queryset : option QuerySet)
  : QuerySet :=
  match queryset with
  | Some q => if db_bool db q then q else get_queryset self
  | None => get_queryset self
  end.

(** The value of the URL keyword argument named by [lookup_url_kwarg]. *)
Definition lookup_value (self : View) : pyval :=
  default VNone (dict_get (kwargs self) (default "" (lookup_url_kwarg self))).

Definition get_object_spec (db : Database) (self : View) (queryset : option QuerySet)
  : result pyval :=
  if decide (lookup_fields self = []) then
    Raise (AttributeError "'lookup_fields' cannot be empty")
  else if decide (lookup_url_kwarg self = None \/ lookup_url_kwarg self = Some "") then
    Raise (AttributeError "'lookup_url_kwarg' must be specified")
  else
    let q := lookup_queryset db self queryset in
    first_match (fun field => db_get db q field (lookup_value self))
      (Http404 (msg_not_found (verbose_name db q))) (lookup_fields self).

(** The checkbox values the request posts. *)
Definition selected (request : HttpRequest) : list pyval :=
  getlist (POST request) ACTION_CHECKBOX_NAME.

(** The data the action form is bound to. *)
Definition form_data (request : HttpRequest) : QueryDict :=
  pop (pop (copy (POST request)) ACTION_CHECKBOX_NAME) "index".

(** The cleaned data of the posted form, when the form is valid. *)
Definition cleaned_data
    (filter_actions : View -> HttpRequest -> list action_tuple -> list action_tuple)
    (action_description : heap -> loc -> string -> string)
    (format_description : string -> string)
    (self : View) (request : HttpRequest) (w : world) : option (string * bool) :=
  action_form self (form_data request)
    (get_action_choices filter_actions action_description format_description
       self (w_heap w) request).

End Descriptions.

(* ===================================================================== *)
(** * Example data for auth/mixins.py                                     *)
(* ===================================================================== *)
Module AuthExamples.
Import Py Django AuthMixins.

(** Examples: a heap with a user [1], an order [2] of that user, and an
    order [3] of user [4]. *)
Definition heap_example : heap :=
  {[ 1%positive := {[ "username" := VStr "ann" ]};
     2%positive := {[ "user" := VRef 1 ]};
     3%positive := {[ "user" := VRef 4 ]};
     4%positive := {[ "username" := VStr "bob" ]} ]}.

(** Equality of the examples' objects: the same object. *)
Definition same_object (a b : pyval) : bool :=
  match a, b with
  | VRef x, VRef y => bool_decide (x = y)
  | _, _ => false
  end.

Definition db_example : Database :=
  {| db_get := fun _ _ _ => Raise DoesNotExist;
     db_bool := fun _ => true;
     db_first := fun _ => Ok (VRef 2);
     verbose_name := fun _ => "order" |}.

(** A view whose [get_object], when it has one, returns [getter], and
    whose class has a [get_queryset]. *)
Definition view_example (object : option pyval) (getter : option pyval) : View :=
  {| request := {| GET_pairs := []; POST_pairs := []; user := VRef 1; full_path := "/" |};
     model_permission_user_field := default_model_permission_user_field;
     object_attr := object;
     get_object := option_map Ok getter;
     get_queryset := Some (Ok (QAll "order")) |}.

(** A view of the mixin alone: no [object], no [get_object] and no
    [get_queryset]. *)
Definition view_bare : View :=
  {| request := {| GET_pairs := []; POST_pairs := []; user := VRef 1; full_path := "/" |};
     model_permission_user_field := default_model_permission_user_field;
     object_attr := None;
     get_object := None;
     get_queryset := None |}.

End AuthExamples.

(* ===================================================================== *)
(** * Example data for views/mixins.py and the template tags              *)
(* ===================================================================== *)
Module ViewsExamples.
Import Py Django ViewsMixins.

(** A view with the given choices and query string. *)
Definition view_of (choices : list Z) (query : list (string * string)) : View :=
  {| request := {| GET_pairs := query; POST_pairs := []; user := VNone; full_path := "/" |};
     kwargs := [];
     params := items (QueryDict_of_pairs query);
     actions := None;
     class_functions := [];
     action_form := fun _ _ => None;
     action_selection_max := None;
     pagination_choices := choices;
     pagination_param := default_pagination_param;
     lookup_fields := [];
     lookup_url_kwarg := None;
     get_queryset := QAll "item" |}.

(** A view with the class attributes' values. *)
Definition view_of_query (query : list (string * string)) : View :=
  view_of default_pagination_choices query.

(** [str] on the values of the examples. *)
Definition str_example (v : pyval) : string :=
  match v with
  | VStr s => s
  | VInt z => ViewsMixins.str_of_Z z
  | VBool true => "True"
  | VBool false => "False"
  | VNone => "None"
  | VList [] => "[]"
  | _ => "<object>"
  end.

(** Examples: objects are found by [slug] only. *)
Definition db_slugs : Database :=
  {| db_get := fun _ field value =>
       if String.eqb field "pk" then Raise ValueError
       else if String.eqb field "uuid" then Raise ValidationError
       else if String.eqb field "slug" then
         match value with
         | VStr "first-post" => Ok (VRef 10)
         | _ => Raise DoesNotExist
         end
       else Raise (OtherException "FieldError");
     db_bool := fun _ => true;
     db_first := fun _ => Ok VNone;
     verbose_name := fun _ => "post" |}.

Definition view_slug (fields : list string) (kwarg : option string) (slug : string) : View :=
  {| request := {| GET_pairs := []; POST_pairs := []; user := VNone; full_path := "/" |};
     kwargs := [("ident", VStr slug)];
     params := [];
     actions := None;
     class_functions := [];
     action_form := ActionForm;
     action_selection_max := None;
     pagination_choices := default_pagination_choices;
     pagination_param := default_pagination_param;
     lookup_fields := fields;
     lookup_url_kwarg := kwarg;
     get_queryset := QAll "post" |}.

(** Examples: a view with the actions [archive] (function [7], discrete
    selections only) and [export] (function [8], select-across allowed),
    the framework's form, and a cap of two items. *)
Definition heap_actions : heap :=
  {[ 7%positive := {[ "allow_select_across" := VBool false ]};
     8%positive := {[ "allow_select_across" := VBool true;
                      "short_description" := VStr "Export selected" ]} ]}.

Definition world_actions : world :=
  {| w_heap := heap_actions; w_messages := []; w_calls := [] |}.

Definition view_actions (post : list (string * string)) : View :=
  {| request := {| GET_pairs := []; POST_pairs := post; user := VNone; full_path := "/items/" |};
     kwargs := [];
     params := [];
     actions := Some [ACallable 7 "archive"; ACallable 8 "export"];
     class_functions := [];
     action_form := ActionForm;
     action_selection_max := Some 2;
     pagination_choices := default_pagination_choices;
     pagination_param := default_pagination_param;
     lookup_fields := [];
     lookup_url_kwarg := None;
     get_queryset := QAll "item" |}.

(** Every action is permitted. *)
Definition filter_all (self : View) (request : HttpRequest) (acts : list action_tuple)
  : list action_tuple := acts.

(** The [short_description] of the function, its name otherwise. *)
Definition description_example (h : heap) (f : loc) (name : string) : string :=
  match attrs_of h f !! "short_description" with
  | Some (VStr d) => d
  | _ => name
  end.

(** Every action returns [None]. *)
Definition call_example (f : loc) (self : View) (request : HttpRequest) (q : QuerySet)
  : result returned := Ok (Value VNone).

(** The primary key of the examples is an integer: a filter on it accepts
    integers and decimal text, and raises [ValueError] on any other
    value. *)
Definition integer_key (v : pyval) : bool :=
  match v with
  | VInt _ => true
  | VStr s => match int_of_ascii s with Some _ => true | None => false end
  | _ => false
  end.

Definition filter_example (q : QuerySet) (lookup : string) (values : list pyval)
  : result QuerySet :=
  if forallb integer_key values then Ok (QFilter lookup values q) else Raise ValueError.

Definition response_action_example (post : list (string * string))
  : result (option HttpResponse) * world :=
  response_action filter_all description_example id call_example filter_example
    (view_actions post) (request (view_actions post)) (QAll "item") world_actions.

(** The view of [view_actions] with another cap. *)
Definition view_capped (cap : Z) (post : list (string * string)) : View :=
  {| request := {| GET_pairs := []; POST_pairs := post; user := VNone; full_path := "/items/" |};
     kwargs := [];
     params := [];
     actions := Some [ACallable 7 "archive"; ACallable 8 "export"];
     class_functions := [];
     action_form := ActionForm;
     action_selection_max := Some cap;
     pagination_choices := default_pagination_choices;
     pagination_param := default_pagination_param;
     lookup_fields := [];
     lookup_url_kwarg := None;
     get_queryset := QAll "item" |}.

(** No checkbox is ticked. *)
Definition post_none : list (string * string) :=
  [("action", "archive"); ("select_across", "0")].

(** A ticked checkbox whose value is no primary key. *)
Definition post_invalid : list (string * string) :=
  [("action", "archive"); ("select_across", "0"); ("_selected_action", "abc")].

Definition post_three : list (string * string) :=
  [("action", "archive"); ("select_across", "0");
   ("_selected_action", "1"); ("_selected_action", "2"); ("_selected_action", "3")].

Definition post_two : list (string * string) :=
  [("action", "archive"); ("select_across", "0");
   ("_selected_action", "1"); ("_selected_action", "2")].

Definition post_all (action : string) : list (string * string) :=
  [("action", action); ("select_across", "1"); ("_selected_action", "1")].

End ViewsExamples.

(* ===================================================================== *)
(** * The parts of [get_actions] and [post], and further example data      *)
(* ===================================================================== *)
Module CasesData.
Import Py Django ViewsMixins ViewsMixinsRest ViewsExamples.

Section Parts.
Variable ModelAdmin_filter_actions_by_permissions :
  View -> HttpRequest -> list action_tuple -> list action_tuple.
Variable ModelAdmin_get_action_description : heap -> loc -> string -> string.
Variable super_post :
  option (HttpRequest -> world -> result (option HttpResponse) * world).

(** The tuples [get_actions] builds its dictionary from. *)
Definition permitted_actions (self : View) (h : heap) (request : HttpRequest)
  : list action_tuple :=
  match actions self with
  | None => []
  | Some _ =>
      ModelAdmin_filter_actions_by_permissions self request
        (_get_base_actions ModelAdmin_get_action_description self h)
  end.

(** [super().post(request)], or the [None] the method ends with. *)
Definition next_post (request : HttpRequest) (w : world)
  : result (option HttpResponse) * world :=
  match super_post with
  | Some next => next request w
  | None => (Ok None, w)
  end.

End Parts.

(** The argument that counts after two decorations: the later one, unless
    it is [None]. *)
Definition or_else (later earlier : pyval) : pyval :=
  if is_none later then earlier else later.

(** Examples: only [archive] is permitted. *)
Definition filter_archive (self : View) (request : HttpRequest) (acts : list action_tuple)
  : list action_tuple :=
  List.filter (fun t : action_tuple => String.eqb t.1.2 "archive") acts.


(** Examples: the next class answers every post with a page. *)
Definition super_post_example (request : HttpRequest) (w : world)
  : result (option HttpResponse) * world :=
  (Ok (Some (HttpResponseRedirect "/next/")), w).

(** Examples: the slugs of [db_slugs], with the query set [QAll "draft"]
    empty. *)
Definition db_drafts : Database :=
  {| db_get := db_get db_slugs;
     db_bool := fun q => match q with QAll "draft" => false | _ => true end;
     db_first := db_first db_slugs;
     verbose_name := verbose_name db_slugs |}.

Definition request_of (query : list (string * string)) : HttpRequest :=
  {| GET_pairs := query; POST_pairs := []; user := VNone; full_path := "/" |}.

End CasesData.

(* ===================================================================== *)
(** * Properties of the runtime fragment                                   *)
(* ===================================================================== *)
Module PyProps.
Import Py.

Section SortedProps.
Context {A : Type} (le : A -> A -> bool).

Lemma insert_sorted_perm x l : insert_sorted le x l ≡ₚ x :: l.
Proof.
  induction l as [|y l IH]; simpl; [done|].
  destruct (le x y); [done|].
  rewrite IH. apply Permutation_swap.
Qed.

Lemma sorted_perm l : sorted le l ≡ₚ l.
Proof.
  induction l as [|x l IH]; simpl; [done|].
  rewrite insert_sorted_perm. by rewrite IH.
Qed.

Lemma sorted_nil_inv l : sorted le l = [] -> l = [].
Proof.
  intros E. apply Permutation_nil_r. rewrite <- E. symmetry. apply sorted_perm.
Qed.

Hypothesis le_total : forall x y, le x y = true \/ le y x = true.
Hypothesis le_trans : forall x y z, le x y = true -> le y z = true -> le x z = true.

Lemma insert_sorted_StronglySorted x l :
  StronglySorted (fun a b => le a b = true) l ->
  StronglySorted (fun a b => le a b = true) (insert_sorted le x l).
Proof.
  induction 1 as [|y l Hl IH Hy]; simpl.
  - repeat constructor.
  - destruct (le x y) eqn:E.
    + constructor; [by constructor|].
      constructor; [done|].
      eapply Forall_impl; [exact Hy|]. intros z Hz. by eapply le_trans.
    + constructor; [done|].
      rewrite insert_sorted_perm. constructor; [|done].
      destruct (le_total x y); congruence.
Qed.

Lemma sorted_StronglySorted l :
  StronglySorted (fun a b => le a b = true) (sorted le l).
Proof.
  induction l; simpl; [constructor|]. by apply insert_sorted_StronglySorted.
Qed.

(** The head of [sorted l] is the first element of [l] that no element
    of [l] is below: everything before it is strictly above it. *)
Lemma sorted_head l c s :
  sorted le l = c :: s ->
  exists pre post, l = (pre ++ c :: post)%list
    /\ Forall (fun y => le y c = false) pre
    /\ Forall (fun y => le c y = true) post.
Proof.
  revert c s. induction l as [|x l IH]; intros c s; simpl; [done|].
  destruct (sorted le l) as [|c' s'] eqn:E; simpl.
  - apply sorted_nil_inv in E as ->. intros [= <- <-].
    exists [], []. by repeat constructor.
  - destruct (IH c' s' eq_refl) as (pre & post & -> & Hpre & Hpost).
    destruct (le x c') eqn:Ex; intros [= <- <-].
    + exists [], (pre ++ c' :: post)%list. split; [done|]. split; [constructor|].
      apply Forall_app. split; [|constructor].
      * eapply Forall_impl; [exact Hpre|]. intros y Hy.
        apply le_trans with c'; [done|]. destruct (le_total c' y); congruence.
      * done.
      * eapply Forall_impl; [exact Hpost|]. intros y Hy. by apply le_trans with c'.
    + exists (x :: pre), post. split; [done|]. split; [by constructor|done].
Qed.

End SortedProps.

(** Text order. *)
Lemma leb_total (a b : string) : String.leb a b = true \/ String.leb b a = true.
Proof. apply String.leb_total. Qed.

Lemma leb_iff (a b : string) : String.leb a b = true <-> String_as_OT.lt a b \/ a = b.
Proof.
  unfold String.leb. destruct (String.compare a b) eqn:E.
  - apply String_as_OT.cmp_eq in E. naive_solver.
  - apply String_as_OT.cmp_lt in E. naive_solver.
  - split; [done|]. intros [H| ->].
    + apply String_as_OT.cmp_lt in H. unfold String_as_OT.cmp in H. congruence.
    + assert (String_as_OT.cmp b b = Eq) as H by by apply String_as_OT.cmp_eq.
      unfold String_as_OT.cmp in H. congruence.
Qed.

Lemma leb_trans (a b c : string) :
  String.leb a b = true -> String.leb b c = true -> String.leb a c = true.
Proof.
  rewrite !leb_iff. intros [H1| ->] [H2| ->]; try naive_solver.
  left. by eapply String_as_OT.lt_trans.
Qed.

Lemma leb_ne_ltb (a b : string) :
  String.leb a b = true -> a <> b -> String.ltb a b = true.
Proof.
  unfold String.leb, String.ltb. destruct (String.compare a b) eqn:E; try done.
  apply String.compare_eq_iff in E. done.
Qed.

End PyProps.

(* ===================================================================== *)
(** * Properties of the framework's dictionaries                           *)
(* ===================================================================== *)
Module DjangoProps.
Import Py Django Descriptions.

Section DictProps.
Context {V : Type}.
Implicit Types (d : list (string * V)) (k : string) (v : V).

Lemma dict_get_set d k v k' :
  dict_get (dict_set d k v) k' = if decide (k = k') then Some v else dict_get d k'.
Proof.
  induction d as [|[k0 v0] d IH]; simpl.
  - destruct (String.eqb_spec k k'); case_decide; congruence.
  - destruct (String.eqb_spec k0 k) as [->|Hne]; simpl.
    + destruct (String.eqb_spec k k'); case_decide; congruence.
    + destruct (String.eqb_spec k0 k'); [|done].
      case_decide; congruence.
Qed.

Lemma dict_get_del d k k' :
  dict_get (dict_del d k) k' = if decide (k = k') then None else dict_get d k'.
Proof.
  unfold dict_del. induction d as [|[k0 v0] d IH]; simpl.
  - by case_decide.
  - rewrite filter_cons. simpl. destruct (decide (k0 <> k)) as [Hne|Heq]; simpl.
    + rewrite IH. destruct (String.eqb_spec k0 k'); [|done].
      case_decide; congruence.
    + apply dec_stable in Heq as ->. rewrite IH.
      destruct (String.eqb_spec k k'); case_decide; congruence.
Qed.

Lemma dict_get_None d k : dict_get d k = None <-> k ∉ d.*1.
Proof.
  induction d as [|[k0 v0] d IH]; simpl.
  - split; [intros _; apply not_elem_of_nil|done].
  - rewrite not_elem_of_cons. destruct (String.eqb_spec k0 k) as [->|Hne].
    + split; [done|]. by intros [? _].
    + rewrite IH. split; [by split|by intros [_ ?]].
Qed.

Lemma dict_set_keys d k v :
  (dict_set d k v).*1 = if decide (k ∈ d.*1) then d.*1 else (d.*1 ++ [k])%list.
Proof.
  induction d as [|[k0 v0] d IH]; [done|]. csimpl.
  destruct (String.eqb_spec k0 k) as [->|Hne]; csimpl.
  - rewrite decide_True; [done|]. apply elem_of_cons. by left.
  - rewrite IH. destruct (decide (k ∈ d.*1)) as [Hin|Hnin].
    + rewrite decide_True; [done|]. apply elem_of_cons. by right.
    + rewrite decide_False; [done|]. intros [->|H]%elem_of_cons; done.
Qed.

Lemma dict_set_NoDup d k v : NoDup d.*1 -> NoDup (dict_set d k v).*1.
Proof.
  intros Hd. rewrite dict_set_keys. case_decide as Hk; [done|].
  apply NoDup_app. split; [done|]. split; [|apply NoDup_singleton].
  intros x Hx ->%list_elem_of_singleton. done.
Qed.

Lemma dict_del_NoDup d k : NoDup d.*1 -> NoDup (dict_del d k).*1.
Proof.
  intros Hd. eapply sublist_NoDup; [exact Hd|].
  apply fmap_sublist. unfold dict_del. apply sublist_filter.
Qed.

(** With distinct keys, the pairs of a dictionary are its lookups. *)
Lemma elem_of_dict d k v : NoDup d.*1 -> (k, v) ∈ d <-> dict_get d k = Some v.
Proof.
  induction d as [|[k0 v0] d IH]; simpl; intros Hd.
  - split; [intros H; by apply elem_of_nil in H|done].
  - apply NoDup_cons in Hd as [Hk0 Hd]. rewrite elem_of_cons, (IH Hd).
    destruct (String.eqb_spec k0 k) as [->|Hne].
    + split; [intros [[= ->]|H]; [done|]|intros [= ->]; by left].
      apply dict_get_None in Hk0. congruence.
    + split; [intros [[= ? ?]|H]; [congruence|done]|intros H; by right].
Qed.

End DictProps.

Lemma QueryDict_of_pairs_snoc pairs k v :
  QueryDict_of_pairs (pairs ++ [(k, v)]) = appendlist (QueryDict_of_pairs pairs) k (VStr v).
Proof. unfold QueryDict_of_pairs. by rewrite foldl_app. Qed.

(** A key of [QueryDict(query_string)] holds the values the query string
    gives it; a key the query string does not mention is absent. *)
Lemma dict_get_of_pairs pairs k :
  dict_get (QueryDict_of_pairs pairs) k =
    match values_of pairs k with
    | [] => None
    | l => Some l
    end.
Proof.
  induction pairs as [|[k0 v0] pairs IH] using rev_ind; [done|].
  rewrite QueryDict_of_pairs_snoc. unfold appendlist, values_of.
  rewrite dict_get_set, filter_app, fmap_app.
  rewrite filter_cons, filter_nil. simpl.
  destruct (decide (k0 = k)) as [->|Hne]; simpl.
  - rewrite IH. unfold values_of.
    by destruct ((VStr ∘ snd) <$> filter (fun kv => kv.1 = k) pairs).
  - rewrite IH. unfold values_of. by rewrite app_nil_r.
Qed.

Lemma QueryDict_of_pairs_NoDup pairs : NoDup (QueryDict_of_pairs pairs).*1.
Proof.
  induction pairs as [|[k0 v0] pairs IH] using rev_ind; [constructor|].
  rewrite QueryDict_of_pairs_snoc. by apply dict_set_NoDup.
Qed.

(** [QueryDict.get] on the dictionary of a query string. *)
Lemma get_of_pairs pairs k dflt :
  get (QueryDict_of_pairs pairs) k dflt =
    match param_value pairs k with
    | Some s => VStr s
    | None => dflt
    end.
Proof.
  unfold get, getitem, param_value. rewrite dict_get_of_pairs. unfold values_of.
  destruct (filter (fun kv => kv.1 = k) pairs) as [|kv l] using rev_ind; [done|].
  rewrite fmap_app. simpl. rewrite last_snoc. simpl.
  destruct ((VStr ∘ snd <$> l) ++ [VStr kv.2])%list eqn:E.
  - by apply app_nil in E as [_ ?].
  - rewrite <- E. unfold last_value. by rewrite last_snoc.
Qed.

End DjangoProps.

(* ===================================================================== *)
(** * AdjustablePaginationMixin.get_paginate_by                            *)
(* ===================================================================== *)
Module PaginationProps.
Import Py Django ViewsMixins Descriptions ViewsExamples PyProps DjangoProps.

Section Pagination.
Variable py_int : string -> option Z.

(** The parameter the method converts is text, or the default 0. *)
Lemma paginate_by_param self :
  int_ py_int (get (GET (request self)) (pagination_param self) (VInt 0)) =
    match param_value (GET_pairs (request self)) (pagination_param self) with
    | Some s => match py_int s with Some z => Ok z | None => Raise ValueError end
    | None => Ok 0
    end.
Proof.
  unfold GET. rewrite get_of_pairs.
  by destruct (param_value _ _).
Qed.

(** Once the page size is known, the loop and the sort pick the first
    choice at minimal distance. *)
Lemma nearest_choice (choices : list Z) (n : Z) c s :
  sorted (fun x y : Z * Z => x.1 <=? y.1) (map (fun i => (Z.abs (i - n), i)) choices)
    = c :: s ->
  exists pre post, choices = (pre ++ c.2 :: post)%list
    /\ c.1 = Z.abs (c.2 - n)
    /\ Forall (fun y => Z.abs (c.2 - n) < Z.abs (y - n)) pre
    /\ Forall (fun y => Z.abs (c.2 - n) <= Z.abs (y - n)) post.
Proof.
  intros E. apply sorted_head in E as (pre & post & E & Hpre & Hpost).
  - apply fmap_app_inv in E as (pre' & rest & -> & E & ->).
    destruct rest as [|c' post']; [done|]. injection E as -> ->.
    exists pre', post'. simpl. split; [done|]. split; [done|].
    rewrite Forall_fmap in Hpre. rewrite Forall_fmap in Hpost. split.
    + eapply Forall_impl; [exact Hpre|]. simpl. intros y Hy.
      apply Z.leb_gt in Hy. lia.
    + eapply Forall_impl; [exact Hpost|]. simpl. intros y Hy.
      apply Z.leb_le in Hy. lia.
  - intros x y. rewrite !Z.leb_le. lia.
  - intros x y z. rewrite !Z.leb_le. lia.
Qed.

(** With a page size and a choice at hand, the method returns the first
    choice at minimal distance from the page size. *)
Lemma get_paginate_by_first_nearest (self : View) (n : Z) :
  pagination_choices self <> [] ->
  requested_page_size py_int self = Some n ->
  exists c pre post,
    get_paginate_by py_int self = Ok c
    /\ pagination_choices self = (pre ++ c :: post)%list
    /\ Forall (fun y => Z.abs (c - n) < Z.abs (y - n)) pre
    /\ Forall (fun y => Z.abs (c - n) <= Z.abs (y - n)) post.
Proof.
  intros Hne Hn. unfold get_paginate_by. rewrite paginate_by_param.
  unfold requested_page_size in Hn.
  assert (match param_value (GET_pairs (request self)) (pagination_param self) with
          | Some s => match py_int s with Some z => Ok z | None => Raise ValueError end
          | None => Ok 0
          end = Ok n) as ->.
  { destruct (param_value _ _); [by rewrite Hn|congruence]. }
  simpl.
  destruct (sorted _ _) as [|c s] eqn:E.
  - apply sorted_nil_inv, fmap_nil_inv in E. done.
  - destruct (nearest_choice _ _ _ _ E) as (pre & post & Hc & _ & Hpre & Hpost).
    by exists c.2, pre, post.
Qed.

(** C1 (amended).  When the ['paginate_by'] GET parameter is absent or
    parses as an integer [n] (0 when absent) and [pagination_choices] is
    not empty, [get_paginate_by] returns a member of [pagination_choices]
    whose absolute difference from [n] is minimal; among several such
    members it returns the one listed first. *)
Theorem get_paginate_by_nearest (self : View) (n : Z) :
  pagination_choices self <> [] ->
  requested_page_size py_int self = Some n ->
  exists c, get_paginate_by py_int self = Ok c
    /\ c ∈ pagination_choices self
    /\ (forall c', c' ∈ pagination_choices self -> Z.abs (c - n) <= Z.abs (c' - n))
    /\ exists pre post, pagination_choices self = (pre ++ c :: post)%list
         /\ Forall (fun y => Z.abs (c - n) < Z.abs (y - n)) pre.
Proof.
  intros Hne Hn.
  destruct (get_paginate_by_first_nearest self n Hne Hn)
    as (c & pre & post & Hc & Hchoices & Hpre & Hpost).
  exists c. split; [done|]. rewrite Hchoices. split; [|split].
  - apply elem_of_app. right. apply elem_of_cons. by left.
  - intros c' [Hin|[->|Hin]%elem_of_cons]%elem_of_app.
    + rewrite Forall_forall in Hpre. specialize (Hpre _ Hin). lia.
    + lia.
    + rewrite Forall_forall in Hpost. by apply Hpost.
  - by exists pre, post.
Qed.

(** C9.  [get_paginate_by] returns only when the ['paginate_by'] GET value
    is absent or parses as an integer, and what it returns is a member of
    [pagination_choices]; a value that does not parse makes it raise
    [ValueError], which the handler for [TypeError] lets through.  Under
    the precondition it does return, as long as there is a choice. *)
Theorem get_paginate_by_partial (self : View) :
  (forall c, get_paginate_by py_int self = Ok c ->
     c ∈ pagination_choices self /\ is_Some (requested_page_size py_int self))
  /\ (forall s, param_value (GET_pairs (request self)) (pagination_param self) = Some s ->
        py_int s = None ->
        get_paginate_by py_int self = Raise ValueError)
  /\ (pagination_choices self <> [] ->
      is_Some (requested_page_size py_int self) ->
      exists c, get_paginate_by py_int self = Ok c /\ c ∈ pagination_choices self).
Proof.
  split; [|split].
  - intros c Hc.
    assert (is_Some (requested_page_size py_int self)) as [n Hn].
    { unfold get_paginate_by in Hc. rewrite paginate_by_param in Hc.
      unfold requested_page_size. destruct (param_value _ _); [|done].
      by destruct (py_int s). }
    split; [|by exists n].
    destruct (pagination_choices self) as [|c0 l] eqn:Hl.
    { unfold get_paginate_by in Hc. rewrite Hl in Hc.
      by destruct (try_except _ _ _). }
    destruct (get_paginate_by_first_nearest self n) as (c' & pre & post & Hc' & Heq & _);
      [by rewrite Hl|done|].
    rewrite Hl in Heq. rewrite Heq. rewrite Hc in Hc'. injection Hc' as <-.
    apply elem_of_app. right. apply elem_of_cons. by left.
  - intros s Hs Hint.
    unfold get_paginate_by. rewrite paginate_by_param, Hs, Hint. done.
  - intros Hne [n Hn].
    destruct (get_paginate_by_first_nearest self n Hne Hn) as (c & pre & post & ? & -> & _).
    exists c. split; [done|]. apply elem_of_app. right. apply elem_of_cons. by left.
Qed.

End Pagination.

(** The nearest choice; 75 is as far from 50 as from 100, and 50 is listed
    first. *)
Example get_paginate_by_examples :
  get_paginate_by int_of_ascii (view_of_query []) = Ok 25
  /\ get_paginate_by int_of_ascii (view_of_query [("paginate_by", "60")]) = Ok 50
  /\ get_paginate_by int_of_ascii (view_of_query [("paginate_by", "75")]) = Ok 50
  /\ get_paginate_by int_of_ascii (view_of_query [("paginate_by", "76")]) = Ok 100
  /\ get_paginate_by int_of_ascii (view_of_query [("paginate_by", "-3")]) = Ok 25
  /\ get_paginate_by int_of_ascii (view_of_query [("paginate_by", "9"); ("paginate_by", "999")])
     = Ok 200.
Proof. repeat split; reflexivity. Qed.

Lemma get_paginate_by_nearest_witness :
  exists c, get_paginate_by int_of_ascii (view_of_query [("paginate_by", "75")]) = Ok c
    /\ c ∈ default_pagination_choices
    /\ (forall c', c' ∈ default_pagination_choices -> Z.abs (c - 75) <= Z.abs (c' - 75))
    /\ exists pre post, default_pagination_choices = (pre ++ c :: post)%list
         /\ Forall (fun y => Z.abs (c - 75) < Z.abs (y - 75)) pre.
Proof.
  apply (get_paginate_by_nearest int_of_ascii (view_of_query [("paginate_by", "75")]) 75);
    [discriminate|reflexivity].
Defined.

Lemma get_paginate_by_partial_witness :
  get_paginate_by int_of_ascii (view_of_query [("paginate_by", "abc")]) = Raise ValueError
  /\ exists c, get_paginate_by int_of_ascii (view_of_query [("paginate_by", "40")]) = Ok c
               /\ c ∈ default_pagination_choices.
Proof.
  split.
  - apply (get_paginate_by_partial int_of_ascii (view_of_query [("paginate_by", "abc")]))
      with (s := "abc"); reflexivity.
  - apply (get_paginate_by_partial int_of_ascii (view_of_query [("paginate_by", "40")]));
      [discriminate|by eexists].
Defined.

(** Not every request gets a page size: a value that is no integer makes
    the call raise, and so does an empty list of choices. *)
Lemma get_paginate_by_not_total :
  get_paginate_by int_of_ascii (view_of_query [("paginate_by", "abc")]) = Raise ValueError
  /\ get_paginate_by int_of_ascii (view_of [] [("paginate_by", "30")]) = Raise IndexError
  /\ ~ (exists c,
          get_paginate_by int_of_ascii (view_of_query [("paginate_by", "abc")]) = Ok c
          /\ c ∈ default_pagination_choices).
Proof.
  split; [reflexivity|]. split; [reflexivity|].
  intros (c & Hc & _). vm_compute in Hc. discriminate.
Qed.

End PaginationProps.

(* ===================================================================== *)
(** * build_query_string                                                   *)
(* ===================================================================== *)
Module UrlToolsProps.
Import Py Django UrlTools Descriptions ViewsExamples PyProps DjangoProps.

Lemma last_value_not_none l :
  Forall (fun v => is_none v = false) l -> is_none (last_value l) = false.
Proof.
  intros Hl. unfold last_value. destruct (last l) as [v|] eqn:E; [|done].
  simpl. rewrite Forall_forall in Hl. apply Hl.
  apply last_Some in E as [l' ->]. apply elem_of_app. right. by apply elem_of_cons; left.
Qed.

Lemma well_formed_nil : well_formed [].
Proof. split; constructor. Qed.

Lemma well_formed_GET r : well_formed (GET r).
Proof.
  split; [apply QueryDict_of_pairs_NoDup|].
  apply Forall_forall. intros [k l] Hin. simpl.
  apply elem_of_dict in Hin; [|apply QueryDict_of_pairs_NoDup].
  unfold GET in Hin. rewrite dict_get_of_pairs in Hin.
  assert (l = values_of (GET_pairs r) k) as ->.
  { destruct (values_of _ _); congruence. }
  unfold values_of. apply Forall_fmap, Forall_forall. done.
Qed.

Lemma well_formed_setitem d k v :
  is_none v = false -> well_formed d -> well_formed (setitem d k v).
Proof.
  intros Hv [Hd Hvals]. split; [by apply dict_set_NoDup|].
  unfold setitem. clear Hd. induction d as [|[k0 l0] d IH]; simpl.
  - by repeat constructor.
  - inversion_clear Hvals as [|? ? Hl0 Hd].
    destruct (String.eqb k0 k); constructor; simpl; auto.
Qed.

Lemma well_formed_delitem d k : well_formed d -> well_formed (delitem d k).
Proof.
  intros [Hd Hvals]. split; [by apply dict_del_NoDup|].
  unfold delitem, dict_del. rewrite Forall_forall in Hvals. apply Forall_forall.
  intros kl [_ Hin]%list_elem_of_filter. by apply Hvals.
Qed.

Lemma well_formed_apply_param d kv : well_formed d -> well_formed (apply_param d kv).
Proof.
  intros Hd. destruct kv as [k v]. unfold apply_param.
  destruct (is_none v) eqn:Hv.
  - destruct (dict_contains d k); [by apply well_formed_delitem|done].
  - by apply well_formed_setitem.
Qed.

(** One turn of the loop is one step of the description. *)
Lemma shown_apply_param d kv k :
  shown (apply_param d kv) k = merge_param (shown d) kv k.
Proof.
  destruct kv as [k0 v]. unfold apply_param, merge_param, shown. simpl.
  destruct (is_none v).
  - unfold dict_contains. destruct (dict_get d k0) eqn:E.
    + unfold delitem. rewrite dict_get_del.
      destruct (decide (k0 = k)) as [->|?]; [by rewrite decide_True|by rewrite decide_False].
    + destruct (decide (k = k0)) as [->|?]; [by rewrite E|done].
  - unfold setitem. rewrite dict_get_set. unfold last_value.
    destruct (decide (k0 = k)) as [->|?]; [by rewrite decide_True|by rewrite decide_False].
Qed.

Lemma shown_foldl params d m k :
  (forall x, shown d x = m x) ->
  shown (foldl apply_param d params) k = foldl merge_param m params k.
Proof.
  revert d m. induction params as [|kv params IH]; intros d m Hdm; simpl; [done|].
  apply IH. intros x. rewrite shown_apply_param. unfold merge_param.
  case_decide; [done|apply Hdm].
Qed.

Lemma well_formed_foldl params d :
  well_formed d -> well_formed (foldl apply_param d params).
Proof.
  revert d. induction params as [|kv params IH]; intros d Hd; simpl; [done|].
  by apply IH, well_formed_apply_param.
Qed.

Lemma shown_GET r k : shown (GET r) k = VStr <$> param_value (GET_pairs r) k.
Proof.
  unfold shown, GET, param_value. rewrite dict_get_of_pairs. unfold values_of.
  destruct (filter (fun kv => kv.1 = k) (GET_pairs r)) as [|kv l _] using rev_ind; [done|].
  rewrite fmap_app, last_snoc. simpl.
  destruct ((VStr ∘ snd <$> l) ++ [VStr kv.2])%list eqn:E.
  - by apply app_nil in E as [_ ?].
  - rewrite <- E. simpl. unfold last_value. by rewrite last_snoc.
Qed.

Lemma elem_of_items d k v : NoDup d.*1 -> (k, v) ∈ items d <-> shown d k = Some v.
Proof.
  intros Hd. unfold items, shown. rewrite list_elem_of_fmap. split.
  - intros ([k' l] & [= -> ->] & Hin). apply elem_of_dict in Hin; [|done].
    by rewrite Hin.
  - destruct (dict_get d k) as [l|] eqn:E; [|done]. intros [= <-].
    exists (k, l). split; [done|]. by apply elem_of_dict.
Qed.

Lemma items_keys d : (items d).*1 = d.*1.
Proof. unfold items. rewrite <- list_fmap_compose. done. Qed.

Lemma check_no_none_ok query :
  Forall (fun kv => is_none kv.2 = false) query -> check_no_none query = Ok query.
Proof.
  induction 1 as [|[k v] q Hv Hq IH]; simpl in *; [done|].
  by rewrite Hv, IH.
Qed.

Lemma items_not_none d : well_formed d -> Forall (fun kv => is_none kv.2 = false) (items d).
Proof.
  intros [_ Hd]. unfold items. apply Forall_fmap. simpl.
  eapply Forall_impl; [exact Hd|]. intros [k l]. apply last_value_not_none.
Qed.

(** Sorted tuples with distinct keys are in strictly ascending key order. *)
Lemma sorted_items_strict (l : list (string * pyval)) :
  NoDup l.*1 ->
  StronglySorted (fun a b => String.ltb a.1 b.1 = true) (sorted item_le l).
Proof.
  intros Hl.
  assert (NoDup (sorted item_le l).*1) as Hnd by by rewrite sorted_perm.
  pose proof (sorted_StronglySorted item_le
                (fun x y => leb_total x.1 y.1)
                (fun x y z => leb_trans x.1 y.1 z.1) l) as Hs.
  induction Hs as [|a s Hs IH Ha]; [constructor|].
  csimpl in Hnd. apply NoDup_cons in Hnd as [Hna Hnd].
  constructor; [by apply IH|].
  apply Forall_forall. intros b Hb. rewrite Forall_forall in Ha.
  apply leb_ne_ltb; [by apply Ha|].
  intros Heq. apply Hna. rewrite Heq. by apply list_elem_of_fmap_2.
Qed.

Section BuildQueryStringProps.
Variable py_str : pyval -> string.

(** C4.  [build_query_string] returns the URL-encoding of the pairs of the
    merged parameters (the request's GET parameters, then each keyword
    parameter in turn deleting its key when its value is [None] and
    setting it otherwise), emitted in ascending key order. *)
Theorem build_query_string_merge (request : option HttpRequest)
    (params : list (string * pyval)) :
  exists pairs,
    build_query_string py_str request params
      = Ok (join "&" (encode_pair py_str <$> pairs))
    /\ StronglySorted (fun a b => String.ltb a.1 b.1 = true) pairs
    /\ forall k v, (k, v) ∈ pairs <-> merged_params request params k = Some v.
Proof.
  set (p0 := match request with Some r => copy (GET r) | None => [] end).
  set (p := foldl apply_param p0 params).
  assert (well_formed p0) as Hp0.
  { destruct request; [apply well_formed_GET|apply well_formed_nil]. }
  assert (well_formed p) as Hp by by apply well_formed_foldl.
  exists (sorted item_le (items p)). split; [|split].
  - unfold build_query_string, urlencode. fold p0. fold p.
    rewrite check_no_none_ok; [done|].
    rewrite sorted_perm. by apply items_not_none.
  - apply sorted_items_strict. rewrite items_keys. apply Hp.
  - intros k v. rewrite sorted_perm, elem_of_items by apply Hp.
    unfold p, merged_params. rewrite (shown_foldl _ _ (request_params request)); [done|].
    intros x. unfold p0. destruct request; [apply shown_GET|done].
Qed.

End BuildQueryStringProps.

(** The call of the docstring, on a request that has parameters of its own. *)
Example build_query_string_docstring :
  build_query_string str_example
    (Some {| GET_pairs := [("page", "2"); ("q", "a b"); ("page", "3")];
             POST_pairs := []; user := VNone; full_path := "/" |})
    [("myParam", VInt 5); ("anotherParam", VStr "true"); ("q", VNone)]
  = Ok "anotherParam=true&myParam=5&page=3".
Proof. reflexivity. Qed.

End UrlToolsProps.

(* ===================================================================== *)
(** * ModelUserFieldPermissionMixin.test_func                              *)
(* ===================================================================== *)
Module AuthProps.
Import Py Django AuthMixins AuthExamples.

Section TestFuncProps.
Variable py_eq : pyval -> pyval -> bool.
Variable db : Database.
Variable h : heap.

(** C3.  On a view whose [object] attribute is set to a true value,
    [test_func] compares [request.user] with the attribute of that object
    named by [get_model_permission_user_field()]: it returns [True] exactly
    when the object has the attribute and the user equals it.  The name is
    ['user'] unless the class attribute is overridden. *)
Theorem test_func_compares_user_field (self : View) (o : pyval) :
  object_attr self = Some o ->
  truthy o = true ->
  test_func py_eq db h self
    = (a ← getattr h o (get_model_permission_user_field self);
       Ok (py_eq (user (request self)) a))
  /\ (test_func py_eq db h self = Ok true
      <-> exists a, getattr h o (get_model_permission_user_field self) = Ok a
                    /\ py_eq (user (request self)) a = true)
  /\ (model_permission_user_field self = default_model_permission_user_field ->
      get_model_permission_user_field self = "user").
Proof.
  intros Ho Ht.
  assert (test_func py_eq db h self
          = (a ← getattr h o (get_model_permission_user_field self);
             Ok (py_eq (user (request self)) a))) as E.
  { unfold test_func. rewrite Ho. change (default VNone (Some o)) with o. by rewrite Ht. }
  split; [exact E|]. split; [|intros Hd; unfold get_model_permission_user_field; by rewrite Hd].
  rewrite E. destruct (getattr h o _) as [a|e]; simpl.
  - split; [intros [= Ha]; by exists a|intros (a' & [= <-] & ->); done].
  - split; [done|intros (a' & ? & _); done].
Qed.

(** C8.  On a view with no true [object] attribute and no [get_object]
    method, [test_func] never returns.  When [self.get_queryset().first()]
    returns, it raises [UnboundLocalError], a [NameError]: the fallback
    branch drops that value, so the local variable [object] is read before
    any assignment.  On a view without a [get_queryset] method the branch
    raises [AttributeError] itself, and an exception of [get_queryset()] or
    of [first()] is raised as it is. *)
Theorem test_func_unbound_object (self : View) :
  truthy (default VNone (object_attr self)) = false ->
  get_object self = None ->
  (forall b, test_func py_eq db h self <> Ok b)
  /\ (forall q v, get_queryset self = Some (Ok q) -> db_first db q = Ok v ->
        test_func py_eq db h self = Raise (UnboundLocalError "object")
        /\ is_NameError (UnboundLocalError "object") = true)
  /\ (get_queryset self = None ->
      test_func py_eq db h self = Raise (AttributeError "get_queryset")
      /\ is_NameError (AttributeError "get_queryset") = false)
  /\ (forall e, get_queryset self = Some (Raise e) -> test_func py_eq db h self = Raise e)
  /\ (forall q e, get_queryset self = Some (Ok q) -> db_first db q = Raise e ->
        test_func py_eq db h self = Raise e).
Proof.
  intros Ht Hg. unfold test_func. rewrite Ht, Hg.
  split; [|split; [|split; [|split]]].
  - intros b. destruct (get_queryset self) as [[q|e]|]; csimpl; [|done..].
    by destruct (db_first db q).
  - intros q v -> Hv. csimpl. by rewrite Hv.
  - by intros ->.
  - by intros e ->.
  - intros q e -> He. csimpl. by rewrite He.
Qed.

End TestFuncProps.

Lemma test_func_compares_user_field_witness :
  test_func same_object db_example heap_example (view_example (Some (VRef 2)) None) = Ok true
  /\ test_func same_object db_example heap_example (view_example (Some (VRef 3)) None) = Ok false.
Proof.
  split.
  - apply (test_func_compares_user_field same_object db_example heap_example
             (view_example (Some (VRef 2)) None) (VRef 2) eq_refl eq_refl).
    exists (VRef 1). split; reflexivity.
  - rewrite (proj1 (test_func_compares_user_field same_object db_example heap_example
                      (view_example (Some (VRef 3)) None) (VRef 3) eq_refl eq_refl)).
    reflexivity.
Defined.

Lemma test_func_unbound_object_witness :
  test_func same_object db_example heap_example (view_example None None)
    = Raise (UnboundLocalError "object").
Proof.
  destruct (test_func_unbound_object same_object db_example heap_example
              (view_example None None) eq_refl eq_refl) as (_ & Hunbound & _).
  exact (proj1 (Hunbound (QAll "order") (VRef 2) eq_refl eq_refl)).
Defined.

(** A view of the mixin alone has neither a true [object] nor a
    [get_object], and [test_func] raises [AttributeError] on it, which is
    no [NameError]. *)
Lemma test_func_no_get_queryset :
  truthy (default VNone (object_attr view_bare)) = false
  /\ get_object view_bare = None
  /\ test_func same_object db_example heap_example view_bare
     = Raise (AttributeError "get_queryset")
  /\ ~ (exists e, test_func same_object db_example heap_example view_bare = Raise e
                  /\ is_NameError e = true).
Proof.
  split; [reflexivity|]. split; [reflexivity|]. split; [reflexivity|].
  intros (e & He & Hname). vm_compute in He. injection He as <-. discriminate.
Qed.

End AuthProps.

(* ===================================================================== *)
(** * The action decorator                                                 *)
(* ===================================================================== *)
Module ActionProps.
Import Py Django ViewsMixins Descriptions.

Lemma attrs_of_setattr (l : loc) (name : string) (v : pyval) (h : heap) (name' : string) :
  attrs_of (setattr l name v h) l !! name'
    = if decide (name = name') then Some v else attrs_of h l !! name'.
Proof.
  unfold setattr. unfold attrs_of at 1. rewrite lookup_insert_eq. simpl.
  case_decide as E; [subst; by rewrite lookup_insert_eq|by rewrite lookup_insert_ne].
Qed.

Lemma setattr_other (l l' : loc) (name : string) (v : pyval) (h : heap) :
  l' <> l -> setattr l name v h !! l' = h !! l'.
Proof. intros Hne. unfold setattr. by rewrite lookup_insert_ne. Qed.

(** C6.  [action] hands back the function it was given, whether called
    with the function (bare use) or first with keyword arguments and then
    with the function.  No other object changes, and on the function only
    metadata is attached: [allow_select_across] is set to the flag ([False]
    in bare use), [allowed_permissions] is written exactly when
    [permissions] is not [None], [short_description] exactly when
    [description] is not [None]. *)
Theorem action_attaches_metadata (f : loc) (permissions description flag : pyval) (h : heap) :
  exists h',
    action (Some f) permissions description flag h = (Function f, h')
    /\ (exists d, action None permissions description flag h = (Decorator d, h)
                  /\ d f h = (f, h'))
    /\ (exists h0, action_bare f h = (Function f, h0)
                   /\ attrs_of h0 f !! "allow_select_across" = Some (VBool false))
    /\ (forall l, l <> f -> h' !! l = h !! l)
    /\ attrs_of h' f !! "allow_select_across" = Some flag
    /\ attrs_of h' f !! "allowed_permissions"
         = (if is_none permissions then attrs_of h f !! "allowed_permissions"
            else Some permissions)
    /\ attrs_of h' f !! "short_description"
         = (if is_none description then attrs_of h f !! "short_description"
            else Some description)
    /\ (forall name, name ∉ metadata_names -> attrs_of h' f !! name = attrs_of h f !! name).
Proof.
  exists (decorator permissions description flag f h).2.
  split; [done|]. split; [by eexists|]. split.
  { eexists. split; [done|]. simpl. by rewrite attrs_of_setattr, decide_True. }
  unfold decorator. simpl.
  split; [|split; [|split; [|split]]].
  - intros l Hl. rewrite setattr_other by done.
    destruct (is_none description), (is_none permissions);
      by rewrite ?setattr_other by done.
  - by rewrite attrs_of_setattr, decide_True.
  - rewrite attrs_of_setattr, decide_False by done.
    destruct (is_none description); [|rewrite attrs_of_setattr, decide_False by done];
      (destruct (is_none permissions); [done|by rewrite attrs_of_setattr, decide_True]).
  - rewrite attrs_of_setattr, decide_False by done.
    destruct (is_none description); [|by rewrite attrs_of_setattr, decide_True].
    destruct (is_none permissions); [done|by rewrite attrs_of_setattr, decide_False].
  - intros name Hname. unfold metadata_names in Hname.
    rewrite !not_elem_of_cons in Hname. destruct Hname as (H1 & H2 & H3 & _).
    rewrite attrs_of_setattr, decide_False by done.
    destruct (is_none description); [|rewrite attrs_of_setattr, decide_False by done];
      (destruct (is_none permissions); [done|by rewrite attrs_of_setattr, decide_False]).
Qed.

(** A function [7] with a docstring, decorated with a description only. *)
Example action_description_only :
  let h := {[ 7%positive := {[ "__doc__" := VStr "Archive the rows." ]} ]} in
  exists h',
    action (Some 7%positive) VNone (VStr "Archive") (VBool true) h = (Function 7%positive, h')
    /\ attrs_of h' 7%positive !! "short_description" = Some (VStr "Archive")
    /\ attrs_of h' 7%positive !! "allowed_permissions" = None
    /\ attrs_of h' 7%positive !! "allow_select_across" = Some (VBool true)
    /\ attrs_of h' 7%positive !! "__doc__" = Some (VStr "Archive the rows.").
Proof. eexists. split; [reflexivity|]. repeat split; reflexivity. Qed.

End ActionProps.

(* ===================================================================== *)
(** * MultipleLookupMixin.get_object                                       *)
(* ===================================================================== *)
Module LookupProps.
Import Py Django ViewsMixins Descriptions ViewsExamples.

Section LookupLoop.
Variable db : Database.

(** The index test of the loop fires on the last field and only there. *)
Lemma lookup_loop_first_match q value vn (fields : list string) (i n : Z) :
  fields <> [] ->
  n = i + Z.of_nat (length fields) ->
  lookup_loop db q value vn n i fields
    = first_match (fun field => db_get db q field value) (Http404 (msg_not_found vn)) fields.
Proof.
  revert i. induction fields as [|field rest IH]; intros i Hne Hn; [done|].
  simpl. destruct (db_get db q field value) as [o|e]; [done|].
  destruct (lookup_failed e); [|done].
  destruct rest as [|field' rest'].
  - simpl in *. rewrite (proj2 (Z.eqb_eq _ _)) by lia. done.
  - rewrite (proj2 (Z.eqb_neq _ _)) by (simpl length in Hn; lia).
    apply IH; [done|]. simpl length in *. lia.
Qed.



Lemma kwarg_unset (k : option string) :
  negb (truthy (from_option VStr VNone k)) = true <-> k = None \/ k = Some "".
Proof.
  destruct k as [s|]; simpl; [|by split; [left|]].
  destruct (String.eqb_spec s "") as [->|Hs]; simpl.
  - by split; [right|].
  - split; [done|]. by intros [?|[= ?]].
Qed.


End LookupLoop.


Example get_object_examples :
  get_object db_slugs (view_slug ["pk"; "uuid"; "slug"] (Some "ident") "first-post") None
    = Ok (VRef 10)
  /\ get_object db_slugs (view_slug ["pk"; "uuid"; "slug"] (Some "ident") "missing") None
    = Raise (Http404 "No post found matching the query")
  /\ get_object db_slugs (view_slug ["pk"; "uuid"] (Some "ident") "first-post") None
    = Raise (Http404 "No post found matching the query")
  /\ get_object db_slugs (view_slug [] (Some "ident") "first-post") None
    = Raise (AttributeError "'lookup_fields' cannot be empty")
  /\ get_object db_slugs (view_slug ["slug"] None "first-post") None
    = Raise (AttributeError "'lookup_url_kwarg' must be specified")
  /\ get_object db_slugs (view_slug ["pk"; "title"; "slug"] (Some "ident") "first-post") None
    = Raise (OtherException "FieldError").
Proof. repeat split; reflexivity. Qed.

End LookupProps.

(* ===================================================================== *)
(** * SelectActionMixin.response_action                                    *)
(* ===================================================================== *)
Module SelectActionProps.
Import Py Django ViewsMixins Descriptions ViewsExamples DjangoProps.

Section ResponseAction.
Variable filter_actions : View -> HttpRequest -> list action_tuple -> list action_tuple.
Variable action_description : heap -> loc -> string -> string.
Variable format_description : string -> string.
Variable call_action : loc -> View -> HttpRequest -> QuerySet -> result returned.
Variable QuerySet_filter : QuerySet -> string -> list pyval -> result QuerySet.

#[local] Abbreviation get_actions := (get_actions filter_actions action_description).
#[local] Abbreviation get_action_choices :=
  (get_action_choices filter_actions action_description format_description).
#[local] Abbreviation perform_action := (perform_action call_action).
#[local] Abbreviation response_action :=
  (response_action filter_actions action_description format_description call_action
     QuerySet_filter).
#[local] Abbreviation cleaned_data :=
  (cleaned_data filter_actions action_description format_description).

(** Performing an action is one call of the function, and at most the
    message of an [ActionException]. *)
Lemma perform_action_calls func self request q w :
  w_calls (perform_action func self request q w).2 = (w_calls w ++ [(func, q)])%list.
Proof.
  unfold ViewsMixins.perform_action.
  destruct (call_action func self request q) as [[r|v]|e]; try done.
  by destruct e.
Qed.

(** The keys of the dictionary of actions are the actions' names. *)
Lemma get_actions_keys self h request k t :
  (k, t) ∈ get_actions self h request -> k = t.1.2.
Proof.
  unfold ViewsMixins.get_actions. destruct (actions self); [|by intros ?%elem_of_nil].
  generalize (SelectActionMixin_filter_actions_by_permissions filter_actions self request
                (_get_base_actions action_description self h)).
  intros acts.
  assert (forall d : list (string * action_tuple),
            Forall (fun kt => kt.1 = kt.2.1.2) d ->
            Forall (fun kt => kt.1 = kt.2.1.2) (foldl (fun d t => dict_set d t.1.2 t) d acts))
    as Hinv.
  { induction acts as [|a acts IH]; intros d Hd; simpl; [done|].
    apply IH. clear IH. induction Hd as [|[k0 t0] d Hk Hd IHd]; simpl.
    - by repeat constructor.
    - destruct (String.eqb_spec k0 a.1.2) as [->|?]; constructor; simpl in *; done. }
  intros Hin. specialize (Hinv [] (Forall_nil_2 _)).
  rewrite Forall_forall in Hinv. exact (Hinv _ Hin).
Qed.

(** A valid [helpers.ActionForm] names one of the view's actions. *)
Lemma ActionForm_names_action self request w action select_across :
  action_form self = ActionForm ->
  cleaned_data self request w = Some (action, select_across) ->
  is_Some (dict_get (get_actions self (w_heap w) request) action).
Proof.
  unfold cleaned_data. intros -> Hvalid. unfold ActionForm, clean_choice in Hvalid.
  destruct (get (form_data request) "action" VNone) as [| | |s| |]; try done.
  destruct (String.eqb s "") eqn:Hs; [done|]. simpl in Hvalid.
  apply String.eqb_neq in Hs.
  case_bool_decide as Hin; [|done]. injection Hvalid as <- _.
  apply elem_of_cons in Hin as [?|Hin]; [done|].
  apply (list_elem_of_fmap fst) in Hin as ([n d] & -> & Hin).
  apply (list_elem_of_fmap (B := string * string)) in Hin as ([k t] & [= -> ->] & Hin).
  simpl.
  pose proof (get_actions_keys _ _ _ _ _ Hin) as Hk. simpl in Hk.
  destruct (dict_get (get_actions self (w_heap w) request) t.1.2) eqn:E; [done|].
  apply dict_get_None in E. exfalso. apply E. rewrite <- Hk.
  by apply (list_elem_of_fmap_2 fst) in Hin.
Qed.

(** Performing an action never gives [None]. *)
Lemma perform_action_returns func self request q w :
  (perform_action func self request q w).1 <> Ok None.
Proof.
  unfold ViewsMixins.perform_action.
  destruct (call_action func self request q) as [[r|v]|e]; try done.
  by destruct e.
Qed.

(** C2.  With a valid form, [select_across] false and a cap
    [action_selection_max], a selection of at least one item and of more
    items than the cap makes [response_action] return [None] without
    calling the action function, the cap's error message recorded instead;
    under a cap that is not negative every selection over the cap has an
    item.  A selection of at least one and at most cap-many items is not
    blocked by the cap: [response_action] goes on to build the filtered
    query set, calls the function on it when it is built and raises the
    filter's exception otherwise, and does not return [None]. *)
Theorem selection_cap (self : View) (request : HttpRequest) (queryset : QuerySet)
    (w : world) (action : string) (func : loc) (name desc : string) (m : Z) :
  cleaned_data self request w = Some (action, false) ->
  dict_get (get_actions self (w_heap w) request) action = Some (func, name, desc) ->
  action_selection_max self = Some m ->
  (0 <= m -> Z.of_nat (length (selected request)) > m -> selected request <> [])
  /\ (selected request <> [] -> Z.of_nat (length (selected request)) > m ->
      response_action self request queryset w
        = (Ok None, add_message ERROR (msg_selection_max m) w)
      /\ w_calls (response_action self request queryset w).2 = w_calls w)
  /\ (selected request <> [] -> Z.of_nat (length (selected request)) <= m ->
      response_action self request queryset w
        = match QuerySet_filter queryset "pk__in" (selected request) with
          | Ok q => perform_action func self request q w
          | Raise e => (Raise e, w)
          end
      /\ (response_action self request queryset w).1 <> Ok None
      /\ forall q, QuerySet_filter queryset "pk__in" (selected request) = Ok q ->
           w_calls (response_action self request queryset w).2
             = (w_calls w ++ [(func, q)])%list).
Proof.
  intros Hform Hfunc Hmax. unfold cleaned_data, form_data in Hform.
  unfold ViewsMixins.response_action. rewrite Hform, Hfunc. fold (selected request).
  unfold over_selection_max. rewrite Hmax. simpl negb. rewrite andb_true_r.
  split; [|split].
  - intros Hm Hlen Hsel. rewrite Hsel in Hlen. simpl length in Hlen. lia.
  - intros Hsel Hlen. destruct (selected request) as [|v l] eqn:Hs; [done|].
    simpl negb. cbv iota.
    rewrite (proj2 (Z.gtb_gt _ _)) by lia. done.
  - intros Hsel Hlen. destruct (selected request) as [|v l] eqn:Hs; [done|].
    simpl negb. cbv iota.
    replace (Z.of_nat (length (v :: l)) >? m) with false
      by (symmetry; apply not_true_is_false; rewrite Z.gtb_gt; lia).
    destruct (QuerySet_filter queryset "pk__in" (v :: l)) as [q|e]; csimpl.
    + split; [done|]. split; [apply perform_action_returns|].
      intros q' [= <-]. apply perform_action_calls.
    + split; [done|]. split; [done|]. intros q' Hq. discriminate Hq.
Qed.

(** C10.  With a valid form and [select_across] true, [response_action]
    calls the action function, on the query set it was given, when the
    function's [allow_select_across] attribute is true; when the attribute
    is false or missing it records an error and returns [None] without a
    call.  With [select_across] false and a selection that passes both
    count checks, the function is called on the query set filtered to the
    selected primary keys when that query set is built; when the filter
    raises, the exception is raised and nothing is called or recorded. *)
Theorem select_across_gate (self : View) (request : HttpRequest) (queryset : QuerySet)
    (w : world) (action : string) (select_across : bool) (func : loc) (name desc : string) :
  cleaned_data self request w = Some (action, select_across) ->
  dict_get (get_actions self (w_heap w) request) action = Some (func, name, desc) ->
  let allowed :=
    truthy (default (VBool false) (attrs_of (w_heap w) func !! "allow_select_across")) in
  can_select_across (w_heap w) request func
    = default (VBool false) (attrs_of (w_heap w) func !! "allow_select_across")
  /\ (select_across = true -> allowed = true ->
      response_action self request queryset w = perform_action func self request queryset w
      /\ w_calls (response_action self request queryset w).2
         = (w_calls w ++ [(func, queryset)])%list)
  /\ (select_across = true -> allowed = false ->
      response_action self request queryset w
        = (Ok None, add_message ERROR msg_discrete_selection w)
      /\ w_calls (response_action self request queryset w).2 = w_calls w)
  /\ (select_across = false -> selected request <> [] ->
      over_selection_max self false (selected request) = None ->
      (forall q, QuerySet_filter queryset "pk__in" (selected request) = Ok q ->
         response_action self request queryset w = perform_action func self request q w
         /\ w_calls (response_action self request queryset w).2
            = (w_calls w ++ [(func, q)])%list)
      /\ (forall e, QuerySet_filter queryset "pk__in" (selected request) = Raise e ->
            response_action self request queryset w = (Raise e, w))).
Proof.
  intros Hform Hfunc allowed. unfold cleaned_data, form_data in Hform.
  assert (can_select_across (w_heap w) request func
          = default (VBool false) (attrs_of (w_heap w) func !! "allow_select_across")) as Hcan.
  { unfold can_select_across, getattr_default, getattr.
    by destruct (attrs_of (w_heap w) func !! "allow_select_across"). }
  split; [exact Hcan|].
  unfold ViewsMixins.response_action. rewrite Hform, Hfunc. fold (selected request).
  rewrite Hcan. fold allowed. split; [|split].
  - intros -> Hallowed. rewrite andb_false_r. simpl. rewrite Hallowed. simpl.
    split; [done|]. apply perform_action_calls.
  - intros -> Hallowed. rewrite andb_false_r. simpl. rewrite Hallowed. done.
  - intros -> Hsel Hcap. rewrite Hcap.
    destruct (selected request) as [|v l]; [done|]. simpl negb. cbv iota.
    split.
    + intros q ->. csimpl. split; [done|]. apply perform_action_calls.
    + intros e ->. done.
Qed.

End ResponseAction.

Lemma selection_cap_witness :
  response_action_example post_three
    = (Ok None,
       add_message ERROR "Only a maximum of 2 items can be selected at a time." world_actions)
  /\ w_calls (response_action_example post_two).2
     = [(7%positive, QFilter "pk__in" [VStr "1"; VStr "2"] (QAll "item"))].
Proof.
  split.
  - destruct (selection_cap filter_all description_example id call_example filter_example
                (view_actions post_three) (request (view_actions post_three)) (QAll "item")
                world_actions "archive" 7%positive "archive" "archive" 2
                eq_refl eq_refl eq_refl) as (_ & Hover & _).
    destruct Hover as [Hres _]; [discriminate|reflexivity|].
    exact Hres.
  - destruct (selection_cap filter_all description_example id call_example filter_example
                (view_actions post_two) (request (view_actions post_two)) (QAll "item")
                world_actions "archive" 7%positive "archive" "archive" 2
                eq_refl eq_refl eq_refl) as (_ & _ & Hunder).
    destruct Hunder as (_ & _ & Hcalls); [discriminate|discriminate|].
    exact (Hcalls _ eq_refl).
Defined.

(** Over a negative cap with nothing selected, the message recorded is the
    nothing-selected warning and no error: the selection exceeds the cap,
    the form is valid and [select_across] is false. *)
Lemma selection_cap_negative :
  cleaned_data filter_all description_example id
    (view_capped (-1) post_none) (request (view_capped (-1) post_none)) world_actions
    = Some ("archive", false)
  /\ action_selection_max (view_capped (-1) post_none) = Some (-1)
  /\ Z.of_nat (length (selected (request (view_capped (-1) post_none)))) > -1
  /\ response_action filter_all description_example id call_example filter_example
       (view_capped (-1) post_none) (request (view_capped (-1) post_none))
       (QAll "item") world_actions
     = (Ok None, add_message WARNING msg_nothing_selected world_actions)
  /\ Forall (fun msg : message => msg.1 <> ERROR)
       (w_messages
          (response_action filter_all description_example id call_example filter_example
             (view_capped (-1) post_none) (request (view_capped (-1) post_none))
             (QAll "item") world_actions).2).
Proof.
  split; [reflexivity|]. split; [reflexivity|]. split; [reflexivity|].
  split; [reflexivity|]. repeat constructor. discriminate.
Qed.

Lemma select_across_gate_witness :
  response_action_example (post_all "archive")
    = (Ok None, add_message ERROR msg_discrete_selection world_actions)
  /\ w_calls (response_action_example (post_all "export")).2 = [(8%positive, QAll "item")]
  /\ w_calls (response_action_example post_two).2
     = [(7%positive, QFilter "pk__in" [VStr "1"; VStr "2"] (QAll "item"))]
  /\ response_action_example post_invalid = (Raise ValueError, world_actions).
Proof.
  split; [|split; [|split]].
  - destruct (select_across_gate filter_all description_example id call_example filter_example
                (view_actions (post_all "archive"))
                (request (view_actions (post_all "archive")))
                (QAll "item") world_actions "archive" true 7%positive "archive" "archive"
                eq_refl eq_refl) as (_ & _ & Hgate & _).
    exact (proj1 (Hgate eq_refl eq_refl)).
  - destruct (select_across_gate filter_all description_example id call_example filter_example
                (view_actions (post_all "export")) (request (view_actions (post_all "export")))
                (QAll "item") world_actions "export" true 8%positive "export" "Export selected"
                eq_refl eq_refl) as (_ & Hgate & _).
    exact (proj2 (Hgate eq_refl eq_refl)).
  - destruct (select_across_gate filter_all description_example id call_example filter_example
                (view_actions post_two) (request (view_actions post_two))
                (QAll "item") world_actions "archive" false 7%positive "archive" "archive"
                eq_refl eq_refl) as (_ & _ & _ & Hfalse).
    destruct Hfalse as [Hok _]; [reflexivity|discriminate|reflexivity|].
    exact (proj2 (Hok _ eq_refl)).
  - destruct (select_across_gate filter_all description_example id call_example filter_example
                (view_actions post_invalid) (request (view_actions post_invalid))
                (QAll "item") world_actions "archive" false 7%positive "archive" "archive"
                eq_refl eq_refl) as (_ & _ & _ & Hfalse).
    destruct Hfalse as [_ Hraise]; [reflexivity|discriminate|reflexivity|].
    exact (Hraise _ eq_refl).
Defined.

(** With [select_across] false and one ticked checkbox, within the cap,
    the function is not called when the posted value is no primary key:
    the filter raises, and so does [response_action]. *)
Lemma select_across_gate_invalid_key :
  cleaned_data filter_all description_example id
    (view_actions post_invalid) (request (view_actions post_invalid)) world_actions
    = Some ("archive", false)
  /\ selected (request (view_actions post_invalid)) = [VStr "abc"]
  /\ over_selection_max (view_actions post_invalid) false
       (selected (request (view_actions post_invalid))) = None
  /\ response_action_example post_invalid = (Raise ValueError, world_actions)
  /\ w_calls (response_action_example post_invalid).2 = [].
Proof. repeat split; reflexivity. Qed.

End SelectActionProps.

(* ===================================================================== *)
(** * The framework methods the mixins bind                                *)
(* ===================================================================== *)
Module ReexposureProps.
Import Py Django ViewsMixins.

Section Reexposure.
(** The framework's functions, whatever they compute. *)
Variable ChangeList_get_query_string :
  View -> option (list (string * pyval)) -> option (list string) -> result string.
Variable ModelAdmin_filter_actions_by_permissions :
  View -> HttpRequest -> list action_tuple -> list action_tuple.
Variable ModelAdmin_get_action_description : heap -> loc -> string -> string.

(** C7.  The mixins' [get_query_string] and
    [SelectActionMixin._filter_actions_by_permissions] are the framework's
    [ChangeList.get_query_string] and
    [ModelAdmin._filter_actions_by_permissions]: on every instance and
    every argument they give what the framework's function gives, and so
    do the mixins' own methods that call them. *)
Theorem mixins_bind_framework_methods (self : View) (request : HttpRequest)
    (new_params : option (list (string * pyval))) (remove : option (list string))
    (acts : list action_tuple) (h : heap) :
  SelectActionMixin_get_query_string ChangeList_get_query_string self new_params remove
    = ChangeList_get_query_string self new_params remove
  /\ ListFilterMixin_get_query_string ChangeList_get_query_string self new_params remove
    = ChangeList_get_query_string self new_params remove
  /\ AdjustablePaginationMixin_get_query_string ChangeList_get_query_string self new_params remove
    = ChangeList_get_query_string self new_params remove
  /\ SelectActionMixin_filter_actions_by_permissions
       ModelAdmin_filter_actions_by_permissions self request acts
    = ModelAdmin_filter_actions_by_permissions self request acts
  /\ get_action_form_url ChangeList_get_query_string self request
    = ChangeList_get_query_string self None None
  /\ get_pagination_form_url ChangeList_get_query_string self request
    = ChangeList_get_query_string self None (Some [pagination_param self])
  /\ (get_actions ModelAdmin_filter_actions_by_permissions
        ModelAdmin_get_action_description self h request).*2
     ⊆ ModelAdmin_filter_actions_by_permissions self request
         (_get_base_actions ModelAdmin_get_action_description self h).
Proof.
  repeat (split; [reflexivity|]).
  unfold get_actions, SelectActionMixin_filter_actions_by_permissions.
  destruct (actions self); [|apply list_subseteq_nil].
  generalize (ModelAdmin_filter_actions_by_permissions self request
                (_get_base_actions ModelAdmin_get_action_description self h)).
  intros permitted.
  assert (forall (d : list (string * action_tuple)) (l0 : list action_tuple),
            d.*2 ⊆ l0 -> permitted ⊆ l0 ->
            (foldl (fun d t => dict_set d t.1.2 t) d permitted).*2 ⊆ l0) as Hinv.
  { clear. induction permitted as [|a l IH]; intros d l0 Hd Hl; simpl; [done|].
    apply IH; [|intros x Hx; apply Hl; by right].
    assert (a ∈ l0) as Ha by (apply Hl; by left).
    clear IH Hl. induction d as [|[k0 t0] d IHd]; simpl.
    - intros x ->%list_elem_of_singleton. done.
    - destruct (String.eqb k0 a.1.2); csimpl.
      + intros x [->|Hx]%elem_of_cons; [done|]. apply Hd. csimpl. by right.
      + intros x [->|Hx]%elem_of_cons; [apply Hd; csimpl; by left|].
        revert x Hx. apply IHd. intros y Hy. apply Hd. csimpl. by right. }
  apply Hinv; [apply list_subseteq_nil|done].
Qed.

End Reexposure.

End ReexposureProps.

(* ===================================================================== *)
(** * SelectActionMixin: what response_action and post do in every case     *)
(* ===================================================================== *)
Module ResponseActionCases.
Import Py Django ViewsMixins ViewsMixinsRest Descriptions ViewsExamples CasesData DjangoProps.
Import SelectActionProps.

Section Cases.
Variable filter_actions : View -> HttpRequest -> list action_tuple -> list action_tuple.
Variable action_description : heap -> loc -> string -> string.
Variable format_description : string -> string.
Variable call_action : loc -> View -> HttpRequest -> QuerySet -> result returned.
Variable QuerySet_filter : QuerySet -> string -> list pyval -> result QuerySet.

#[local] Abbreviation get_actions := (get_actions filter_actions action_description).
#[local] Abbreviation perform_action := (perform_action call_action).
#[local] Abbreviation response_action :=
  (response_action filter_actions action_description format_description call_action
     QuerySet_filter).
#[local] Abbreviation cleaned_data :=
  (cleaned_data filter_actions action_description format_description).
#[local] Abbreviation post :=
  (post filter_actions action_description format_description call_action QuerySet_filter).
#[local] Abbreviation permitted_actions :=
  (permitted_actions filter_actions action_description).

(** The four ways [response_action] ends: [None] with one message, the
    failed lookup of the action, the failed filter on the selected keys,
    or the call of one action function. *)
Lemma response_action_cases self request queryset w :
  (exists lv msg, response_action self request queryset w
                  = (Ok None, add_message lv msg w))
  \/ (exists key, response_action self request queryset w = (Raise (KeyError key), w))
  \/ (exists e,
        QuerySet_filter queryset "pk__in" (selected request) = Raise e
        /\ response_action self request queryset w = (Raise e, w))
  \/ (exists func q,
        (q = queryset \/ QuerySet_filter queryset "pk__in" (selected request) = Ok q)
        /\ response_action self request queryset w
           = perform_action func self request q w).
Proof.
  unfold ViewsMixins.response_action. fold (selected request).
  destruct (action_form self _ _) as [[action select_across]|]; [|left; by eexists _, _].
  destruct (dict_get _ action) as [[[func name] desc]|]; [|right; left; by eexists].
  destruct (negb (truthy (VList (selected request))) && negb select_across);
    [left; by eexists _, _|].
  destruct (over_selection_max self select_across (selected request));
    [left; by eexists _, _|].
  destruct (negb select_across).
  { destruct (QuerySet_filter queryset "pk__in" (selected request)) as [q|e] eqn:Hq; csimpl.
    - right; right; right. exists func, q. split; [by right|done].
    - right; right; left. by exists e. }
  destruct (negb (truthy _)); [left; by eexists _, _|].
  right; right; right. eexists _, _. split; [by left|done].
Qed.

Lemma perform_action_not_none func self request q w :
  (perform_action func self request q w).1 <> Ok None.
Proof.
  unfold ViewsMixins.perform_action.
  destruct (call_action func self request q) as [[r|v]|e]; try done.
  by destruct e.
Qed.

Lemma perform_action_heap func self request q w :
  w_heap (perform_action func self request q w).2 = w_heap w.
Proof.
  unfold ViewsMixins.perform_action.
  destruct (call_action func self request q) as [[r|v]|e]; try done.
  by destruct e.
Qed.

(** X1.  Whatever is posted, [response_action] either returns [None],
    having recorded exactly one message and called nothing; or fails on the
    lookup of the action, having changed nothing; or raises the exception
    of the filter by the selected keys, having changed nothing; or calls
    exactly one action function, on the query set it was given or on the
    one its filter by the selected keys returned, and then does not return
    [None].  It never writes to an object. *)
Theorem response_action_frame (self : View) (request : HttpRequest) (queryset : QuerySet)
    (w : world) :
  let r := (response_action self request queryset w).1 in
  let w' := (response_action self request queryset w).2 in
  w_heap w' = w_heap w
  /\ ((r = Ok None /\ w_calls w' = w_calls w
       /\ exists m, w_messages w' = (w_messages w ++ [m])%list)
      \/ (exists key, r = Raise (KeyError key) /\ w' = w)
      \/ (exists e,
            QuerySet_filter queryset "pk__in" (selected request) = Raise e
            /\ r = Raise e /\ w' = w)
      \/ (r <> Ok None
          /\ exists func q,
               (q = queryset
                \/ QuerySet_filter queryset "pk__in" (selected request) = Ok q)
               /\ w_calls w' = (w_calls w ++ [(func, q)])%list)).
Proof.
  intros r w'. subst r w'.
  destruct (response_action_cases self request queryset w)
    as [(lv & msg & ->)|[(key & ->)|[(e & He & ->)|(func & q & Hq & ->)]]]; simpl.
  - split; [done|]. left. split; [done|]. split; [done|]. by eexists.
  - split; [done|]. right; left. by eexists.
  - split; [done|]. right; right; left. by exists e.
  - split; [apply perform_action_heap|]. right; right; right.
    split; [apply perform_action_not_none|].
    exists func, q. split; [done|]. apply perform_action_calls.
Qed.

(** X2.  When [response_action] calls an action function, the function's
    outcome decides the rest: a response is handed back as it is; any other
    value gives a redirect to the request's full path; an
    [ActionException] is recorded as an error message and gives the same
    redirect; any other exception propagates. *)
Theorem response_action_outcome (self : View) (request : HttpRequest)
    (queryset : QuerySet) (w : world) :
  let r := (response_action self request queryset w).1 in
  let w' := (response_action self request queryset w).2 in
  w_calls w' <> w_calls w ->
  exists func q,
    w_calls w' = (w_calls w ++ [(func, q)])%list
    /\ match call_action func self request q with
       | Ok (Response resp) => r = Ok (Some resp) /\ w_messages w' = w_messages w
       | Ok (Value _) =>
           r = Ok (Some (HttpResponseRedirect (full_path request)))
           /\ w_messages w' = w_messages w
       | Raise (ActionException e) =>
           r = Ok (Some (HttpResponseRedirect (full_path request)))
           /\ w_messages w' = (w_messages w ++ [(ERROR, e)])%list
       | Raise e => r = Raise e /\ w_messages w' = w_messages w
       end.
Proof.
  intros r w' Hcalls. subst r w'.
  destruct (response_action_cases self request queryset w)
    as [(lv & msg & E)|[(key & E)|[(e & He & E)|(func & q & Hq & E)]]];
    rewrite E in Hcalls |- *.
  - done.
  - done.
  - done.
  - exists func, q. split; [apply perform_action_calls|].
    unfold ViewsMixins.perform_action.
    destruct (call_action func self request q) as [[resp|v]|e]; try done.
    by destruct e.
Qed.

Lemma foldl_dict_set_lookup (acts : list action_tuple) (d : list (string * action_tuple))
    (name : string) :
  dict_get (foldl (fun d t => dict_set d t.1.2 t) d acts) name
    = match last (filter (fun t => t.1.2 = name) acts) with
      | Some t => Some t
      | None => dict_get d name
      end.
Proof.
  unfold action_tuple in *.
  revert d. induction acts as [|a acts IH]; intros d; [done|]. cbn [foldl].
  rewrite IH, dict_get_set.
  destruct (decide (a.1.2 = name)) as [Ha|Ha].
  - rewrite filter_cons_True by done.
    destruct (filter (fun t => t.1.2 = name) acts) as [|b l]; [done|].
    rewrite last_cons_cons. destruct (last (b :: l)) eqn:E; [done|].
    by apply last_None in E.
  - by rewrite filter_cons_False by done.
Qed.

Lemma foldl_dict_set_NoDup (acts : list action_tuple) (d : list (string * action_tuple)) :
  NoDup d.*1 -> NoDup (foldl (fun d t => dict_set d t.1.2 t) d acts).*1.
Proof.
  revert d. induction acts as [|a acts IH]; intros d Hd; simpl; [done|].
  by apply IH, dict_set_NoDup.
Qed.

Lemma get_actions_lookup self h request name :
  dict_get (get_actions self h request) name
    = last (filter (fun t => t.1.2 = name) (permitted_actions self h request)).
Proof.
  unfold ViewsMixins.get_actions, CasesData.permitted_actions,
    SelectActionMixin_filter_actions_by_permissions.
  destruct (actions self); [|done].
  rewrite foldl_dict_set_lookup. by destruct (last _).
Qed.

(** X3.  [get_actions] is a dictionary by name: its keys are pairwise
    distinct, each entry is stored under its own name, and a name is
    looked up to the last tuple of that name that the permission filter let
    through (to nothing when there is none, or when [actions] is [None]). *)
Theorem get_actions_by_name (self : View) (h : heap) (request : HttpRequest) :
  NoDup (get_actions self h request).*1
  /\ (forall name t, (name, t) ∈ get_actions self h request -> t.1.2 = name)
  /\ (forall name,
        dict_get (get_actions self h request) name
          = last (filter (fun t => t.1.2 = name) (permitted_actions self h request)))
  /\ (actions self = None -> get_actions self h request = []).
Proof.
  split; [|split; [|split]].
  - unfold ViewsMixins.get_actions. destruct (actions self); [|constructor].
    apply foldl_dict_set_NoDup. constructor.
  - intros name t Hin. symmetry.
    exact (get_actions_keys filter_actions action_description _ _ _ _ _ Hin).
  - apply get_actions_lookup.
  - intros Hnone. unfold ViewsMixins.get_actions. by rewrite Hnone.
Qed.

Lemma ActionForm_posted data choices action select_across :
  ActionForm data choices = Some (action, select_across) ->
  get data "action" VNone = VStr action.
Proof.
  unfold ActionForm, clean_choice.
  destruct (get data "action" VNone) as [| | |s| |]; try done.
  destruct (negb _ && _); [|done]. by intros [= -> _].
Qed.

(** With the framework's form, an action that [get_actions] does not hold
    is answered by the no-action warning. *)
Lemma response_action_unknown self request queryset w :
  action_form self = ActionForm ->
  (forall a, get (form_data request) "action" VNone = VStr a ->
             dict_get (get_actions self (w_heap w) request) a = None) ->
  response_action self request queryset w
    = (Ok None, add_message WARNING msg_no_action w).
Proof.
  intros Hform Hunknown.
  destruct (cleaned_data self request w) as [[action select_across]|] eqn:Hclean.
  - pose proof (ActionForm_names_action filter_actions action_description
                  format_description _ _ _ _ _ Hform Hclean) as [t Ht].
    unfold Descriptions.cleaned_data in Hclean. rewrite Hform in Hclean.
    apply ActionForm_posted in Hclean. rewrite (Hunknown _ Hclean) in Ht. done.
  - unfold Descriptions.cleaned_data, form_data in Hclean.
    unfold ViewsMixins.response_action. by rewrite Hclean.
Qed.

(** X4.  With the framework's form, posting the name of an action that the
    permission filter did not let through (or that the view does not have)
    runs nothing: [response_action] returns [None], records the warning
    that no action was selected, and calls no function. *)
Theorem filtered_action_not_run (self : View) (request : HttpRequest)
    (queryset : QuerySet) (w : world) :
  action_form self = ActionForm ->
  (forall a, get (form_data request) "action" VNone = VStr a ->
             Forall (fun t => t.1.2 <> a) (permitted_actions self (w_heap w) request)) ->
  response_action self request queryset w
    = (Ok None, add_message WARNING msg_no_action w)
  /\ w_calls (response_action self request queryset w).2 = w_calls w.
Proof.
  intros Hform Hfiltered.
  rewrite response_action_unknown; [done|done|].
  intros a Ha. rewrite get_actions_lookup.
  specialize (Hfiltered a Ha). rewrite Forall_forall in Hfiltered.
  destruct (last _) as [t|] eqn:E; [|done]. exfalso.
  apply last_Some in E as [l E].
  assert (t ∈ filter (fun t => t.1.2 = a) (permitted_actions self (w_heap w) request))
    as [Hname Hin]%list_elem_of_filter.
  { rewrite E. apply elem_of_app. right. by apply list_elem_of_singleton. }
  by apply (Hfiltered t).
Qed.

Lemma get_actions_NoDup self h request : NoDup (get_actions self h request).*1.
Proof.
  unfold ViewsMixins.get_actions. destruct (actions self); [|constructor].
  apply foldl_dict_set_NoDup. constructor.
Qed.

(** X19.  The framework's form accepts exactly the posted names of the
    view's actions: the form is valid, with cleaned data [(a, flag)], if
    and only if the request posts the text [a] as [action], [a] is not
    empty, [a] is a key of [get_actions], and [flag] is what the posted
    [select_across] reads as.  So the lookup [get_actions(request)[action]]
    in [response_action] never fails: a [KeyError] that [response_action]
    raises with nothing called can only be one the filter by the selected
    keys raised. *)
Theorem action_form_accepts (self : View) (request : HttpRequest) (queryset : QuerySet)
    (w : world) :
  action_form self = ActionForm ->
  (forall a flag,
     cleaned_data self request w = Some (a, flag)
     <-> get (form_data request) "action" VNone = VStr a
         /\ a <> ""
         /\ is_Some (dict_get (get_actions self (w_heap w) request) a)
         /\ flag = to_python_bool (get (form_data request) "select_across" VNone))
  /\ (forall key,
        response_action self request queryset w = (Raise (KeyError key), w) ->
        QuerySet_filter queryset "pk__in" (selected request) = Raise (KeyError key)).
Proof.
  intros Hform. split.
  - intros a flag. split.
    + intros Hclean.
      pose proof (ActionForm_names_action filter_actions action_description
                    format_description _ _ _ _ _ Hform Hclean) as Hkey.
      unfold Descriptions.cleaned_data in Hclean. rewrite Hform in Hclean.
      pose proof (ActionForm_posted _ _ _ _ Hclean) as Hposted.
      unfold ActionForm, clean_choice in Hclean. rewrite Hposted in Hclean.
      destruct (String.eqb_spec a "") as [->|Hne]; [done|]. simpl in Hclean.
      destruct (bool_decide _); [|done]. by injection Hclean as <-.
    + intros (Hposted & Hne & [t Ht] & ->).
      unfold Descriptions.cleaned_data. rewrite Hform.
      unfold ActionForm, clean_choice. rewrite Hposted.
      apply String.eqb_neq in Hne. rewrite Hne. simpl.
      rewrite bool_decide_eq_true_2; [done|].
      apply elem_of_cons. right.
      apply elem_of_dict in Ht; [|apply get_actions_NoDup].
      pose proof (get_actions_keys filter_actions action_description _ _ _ _ _ Ht) as Hk.
      apply list_elem_of_fmap. exists (a, format_description t.2). split; [done|].
      apply list_elem_of_fmap. exists (a, t). split; [|done]. simpl. by rewrite <- Hk.
  - intros key Hraise.
    destruct (cleaned_data self request w) as [[a flag]|] eqn:Hclean.
    + pose proof (ActionForm_names_action filter_actions action_description
                    format_description _ _ _ _ _ Hform Hclean) as [[[func name] desc] Hkey].
      unfold Descriptions.cleaned_data, form_data in Hclean.
      unfold ViewsMixins.response_action in Hraise. rewrite Hclean, Hkey in Hraise.
      destruct (negb (truthy _) && negb flag); [done|].
      destruct (over_selection_max self flag _); [done|].
      fold (selected request) in Hraise.
      assert (forall q, perform_action func self request q w <> (Raise (KeyError key), w))
        as Hperform.
      { intros q Hq.
        pose proof (perform_action_calls call_action func self request q w) as Hcalls.
        rewrite Hq in Hcalls. simpl in Hcalls.
        apply (f_equal length) in Hcalls. rewrite length_app in Hcalls.
        simpl in Hcalls. lia. }
      destruct (negb flag).
      * destruct (QuerySet_filter queryset "pk__in" (selected request)) as [q|e];
          csimpl in Hraise; [by apply Hperform in Hraise|].
        by injection Hraise as ->.
      * destruct (negb (truthy _)); [done|]. by apply Hperform in Hraise.
    + unfold Descriptions.cleaned_data, form_data in Hclean.
      unfold ViewsMixins.response_action in Hraise. by rewrite Hclean in Hraise.
Qed.

Section PostProps.
Variable super_post :
  option (HttpRequest -> world -> result (option HttpResponse) * world).

#[local] Abbreviation next_post := (next_post super_post).


(** X6.  [post] hands an action's outcome back at once: when the request
    posts an [action] key and [response_action] calls an action function,
    [post] ends with what [response_action] gives and [super().post] is
    not reached.  Without an [action] key [post] is [super().post]. *)
Theorem post_after_action (self : View) (request : HttpRequest) (w : world) :
  (dict_contains (POST request) "action" = true ->
   w_calls (response_action self request (get_queryset self) w).2 <> w_calls w ->
   post super_post self request w = response_action self request (get_queryset self) w)
  /\ (dict_contains (POST request) "action" = false ->
      post super_post self request w = next_post request w).
Proof.
  split.
  - intros Hposted Hcalls. unfold ViewsMixinsRest.post. rewrite Hposted.
    destruct (response_action_cases self request (get_queryset self) w)
      as [(lv & msg & E)|[(key & E)|[(e & He & E)|(func & q & Hq & E)]]];
      rewrite E in Hcalls |- *; try done.
    pose proof (perform_action_not_none func self request q w) as Hnn.
    destruct (perform_action func self request q w) as [[[resp|]|e] w']; try done.
  - intros Hposted. unfold ViewsMixinsRest.post. by rewrite Hposted.
Qed.

End PostProps.

End Cases.

Lemma response_action_outcome_witness :
  (response_action_example post_two).1 = Ok (Some (HttpResponseRedirect "/items/"))
  /\ w_messages (response_action_example post_two).2 = [].
Proof.
  pose proof (response_action_outcome filter_all description_example id call_example filter_example
                (view_actions post_two) (request (view_actions post_two)) (QAll "item")
                world_actions) as H.
  cbv zeta in H. destruct H as (func & q & _ & Hr & Hm).
  - vm_compute. discriminate.
  - split; [exact Hr|exact Hm].
Defined.

Lemma filtered_action_not_run_witness :
  response_action filter_archive description_example id call_example filter_example
    (view_actions (post_all "export")) (request (view_actions (post_all "export")))
    (QAll "item") world_actions
  = (Ok None, add_message WARNING msg_no_action world_actions).
Proof.
  refine (proj1 (filtered_action_not_run filter_archive description_example id call_example filter_example
                   (view_actions (post_all "export"))
                   (request (view_actions (post_all "export")))
                   (QAll "item") world_actions eq_refl _)).
  intros a Ha. vm_compute in Ha. injection Ha as <-.
  vm_compute. constructor; [discriminate|constructor].
Defined.


Lemma action_form_accepts_witness :
  cleaned_data filter_all description_example id (view_actions post_two)
    (request (view_actions post_two)) world_actions
  = Some ("archive", false).
Proof.
  apply (proj2 (proj1 (action_form_accepts filter_all description_example id call_example filter_example
                         (view_actions post_two) (request (view_actions post_two))
                         (QAll "item") world_actions eq_refl) "archive" false)).
  split; [reflexivity|]. split; [discriminate|].
  split; [eexists; reflexivity|reflexivity].
Defined.

Lemma post_after_action_witness :
  post filter_all description_example id call_example filter_example
    (Some super_post_example)
    (view_actions post_two) (request (view_actions post_two)) world_actions
  = response_action_example post_two.
Proof.
  apply (proj1 (post_after_action filter_all description_example id call_example filter_example
                  (Some super_post_example) (view_actions post_two)
                  (request (view_actions post_two)) world_actions)).
  - reflexivity.
  - vm_compute. discriminate.
Defined.

End ResponseActionCases.

(* ===================================================================== *)
(** * AdjustablePaginationMixin: the choices and the form                  *)
(* ===================================================================== *)
Module PaginationFormProps.
Import Py Django ViewsMixins ViewsMixinsRest Descriptions ViewsExamples.
Import PyProps DjangoProps PaginationProps.

(** The values offered are the choices, sorted. *)
Lemma get_pagination_choices_values (self : View) :
  (get_pagination_choices self).*1 ≡ₚ pagination_choices self
  /\ StronglySorted Z.le (get_pagination_choices self).*1.
Proof.
  unfold get_pagination_choices. split.
  - rewrite sorted_perm.
    induction (pagination_choices self) as [|i l IH]; csimpl; [done|]. by rewrite IH.
  - apply (StronglySorted_fmap fst (fun x y : Z * string => (x.1 <=? y.1) = true)).
    + intros x y Hxy. by apply Z.leb_le.
    + apply (sorted_StronglySorted (fun x y : Z * string => x.1 <=? y.1)).
      * intros x y. rewrite !Z.leb_le. lia.
      * intros x y z. rewrite !Z.leb_le. lia.
Qed.

(** X7.  [get_pagination_choices] lists every member of
    [pagination_choices] once per occurrence, in ascending order, each
    labelled with its decimal text. *)
Theorem get_pagination_choices_sorted (self : View) :
  (get_pagination_choices self).*1 ≡ₚ pagination_choices self
  /\ StronglySorted Z.le (get_pagination_choices self).*1
  /\ Forall (fun c => c.2 = str_of_Z c.1) (get_pagination_choices self).
Proof.
  destruct (get_pagination_choices_values self) as [Hperm Hsorted].
  split; [done|]. split; [done|].
  unfold get_pagination_choices. rewrite sorted_perm.
  apply Forall_fmap, Forall_forall. done.
Qed.

Section PaginationFormProps.
Variable py_int : string -> option Z.

(** What [get_paginate_by] returns is one of the choices. *)
Lemma get_paginate_by_member (self : View) (c : Z) :
  get_paginate_by py_int self = Ok c -> c ∈ pagination_choices self.
Proof.
  intros Hc.
  assert (is_Some (requested_page_size py_int self)) as [n Hn].
  { unfold get_paginate_by in Hc. rewrite paginate_by_param in Hc.
    unfold requested_page_size. destruct (param_value _ _); [|done].
    by destruct (py_int s). }
  destruct (pagination_choices self) as [|c0 l] eqn:Hl.
  { unfold get_paginate_by in Hc. rewrite Hl in Hc. by destruct (try_except _ _ _). }
  destruct (get_paginate_by_first_nearest py_int self n) as (c' & pre & post & Hc' & Heq & _);
    [by rewrite Hl|done|].
  rewrite Hl in Heq. rewrite Heq. rewrite Hc in Hc'. injection Hc' as <-.
  apply elem_of_app. right. apply elem_of_cons. by left.
Qed.

(** X8.  A requested page size that is itself one of the choices is
    returned as it is. *)
Theorem get_paginate_by_exact (self : View) (n : Z) :
  requested_page_size py_int self = Some n ->
  n ∈ pagination_choices self ->
  get_paginate_by py_int self = Ok n.
Proof.
  intros Hn Hin.
  destruct (get_paginate_by_first_nearest py_int self n)
    as (c & pre & post & Hc & Heq & Hpre & Hpost); [|done|].
  { intros E. rewrite E in Hin. by apply elem_of_nil in Hin. }
  rewrite Hc. f_equal.
  rewrite Heq in Hin. rewrite Forall_forall in Hpre, Hpost.
  apply elem_of_app in Hin as [Hin|[->|Hin]%elem_of_cons].
  - specialize (Hpre _ Hin). lia.
  - done.
  - specialize (Hpost _ Hin). lia.
Qed.

Variable pagination_form_template : string.

(** X9.  The form [get_pagination_form] builds offers the sorted choices
    and starts on one of them: its initial value is what [get_paginate_by]
    returns and is the value of one of its choices.  The form cannot be
    built exactly when [get_paginate_by] raises, and the exception is that
    one. *)
Theorem get_pagination_form_initial (self : View) :
  (forall form,
     get_pagination_form py_int pagination_form_template self = Ok form ->
     choices (paginate_by form) = get_pagination_choices self
     /\ get_paginate_by py_int self = Ok (initial (paginate_by form))
     /\ initial (paginate_by form) ∈ (choices (paginate_by form)).*1)
  /\ (forall e,
        get_pagination_form py_int pagination_form_template self = Raise e
        <-> get_paginate_by py_int self = Raise e).
Proof.
  unfold get_pagination_form. split.
  - intros form Hform.
    destruct (get_paginate_by py_int self) as [c|e] eqn:Hc; [|done].
    injection Hform as <-. simpl. split; [done|]. split; [done|].
    apply get_paginate_by_member in Hc.
    by rewrite (proj1 (get_pagination_choices_values self)).
  - intros e. destruct (get_paginate_by py_int self) as [c|e']; split; intros H.
    + discriminate H.
    + discriminate H.
    + by injection H as ->.
    + by injection H as ->.
Qed.

End PaginationFormProps.

Lemma get_paginate_by_exact_witness :
  get_paginate_by int_of_ascii (view_of_query [("paginate_by", "100")]) = Ok 100.
Proof.
  apply (get_paginate_by_exact int_of_ascii (view_of_query [("paginate_by", "100")]) 100).
  - reflexivity.
  - repeat constructor.
Defined.

End PaginationFormProps.

(* ===================================================================== *)
(** * setup and ListFilterMixin.has_active_filters                          *)
(* ===================================================================== *)
Module FilterProps.
Import Py Django ViewsMixins ViewsMixinsRest Descriptions ViewsExamples.
Import DjangoProps UrlToolsProps.

Lemma dict_get_items (d : QueryDict) (k : string) :
  dict_get (items d) k = last_value <$> dict_get d k.
Proof.
  induction d as [|[k0 l0] d IH]; simpl; [done|].
  by destruct (String.eqb k0 k).
Qed.

(** X10.  [setup] keeps the request and a copy of its GET parameters with
    one value per key: the keys of [params] are pairwise distinct, and a
    key is looked up to the last value the query string gives it (to
    nothing when the query string does not mention it). *)
Theorem setup_params (self : View) (r : HttpRequest) :
  request (setup self r) = r
  /\ NoDup (params (setup self r)).*1
  /\ forall k, dict_get (params (setup self r)) k = VStr <$> param_value (GET_pairs r) k.
Proof.
  split; [done|]. simpl. split.
  - rewrite items_keys. apply QueryDict_of_pairs_NoDup.
  - intros k. rewrite dict_get_items. apply shown_GET.
Qed.

(** A failed search leaves the iterator empty. *)
Lemma iter_contains_spec (x : string) (it : list string) :
  (iter_contains x it).1 = bool_decide (x ∈ it)
  /\ ((iter_contains x it).1 = false -> (iter_contains x it).2 = []).
Proof.
  induction it as [|y it [IH1 IH2]]; cbn [iter_contains].
  - split; [|done]. cbn [fst]. symmetry. apply bool_decide_eq_false_2, not_elem_of_nil.
  - destruct (String.eqb_spec y x) as [->|Hne]; cbn [fst snd].
    + split; [|done]. symmetry. apply bool_decide_eq_true_2. by left.
    + split; [|done]. rewrite IH1. apply bool_decide_ext.
      rewrite elem_of_cons. split; [by right|]. by intros [->|?].
Qed.

Lemma membership_tests_acc (keys : list string) (bs : list bool) (it : list string) :
  (foldl (fun st param =>
            let '(b, it) := iter_contains param st.2 in ((st.1 ++ [b])%list, it))
         (bs, it) keys).1
  = (bs ++ (membership_tests keys it).1)%list.
Proof.
  unfold membership_tests. revert bs it.
  induction keys as [|k keys IH]; intros bs it; simpl; [by rewrite app_nil_r|].
  destruct (iter_contains k it) as [b it'] eqn:E. simpl.
  rewrite (IH (bs ++ [b])%list), (IH [b]). by rewrite <- app_assoc.
Qed.

Lemma membership_tests_exhausted (keys : list string) :
  existsb id (membership_tests keys []).1 = false.
Proof.
  induction keys as [|k keys IH]; [done|].
  unfold membership_tests. simpl. rewrite membership_tests_acc. simpl. exact IH.
Qed.

(** X11.  [has_active_filters] decides by the first key of [params] alone:
    the membership tests share one iterator over the filters' expected
    parameters, and the test of the first key uses it up unless it
    succeeds.  So the method returns [True] exactly when [params] is not
    empty and its first key is an expected parameter of some filter. *)
Theorem has_active_filters_first_key (filter_specs : list FilterSpec) (self : View) :
  has_active_filters filter_specs self
  = match params self with
    | [] => false
    | (k, _) :: _ => bool_decide (k ∈ concat (map expected_parameters filter_specs))
    end.
Proof.
  unfold has_active_filters.
  destruct (params self) as [|[k v] rest]; [done|].
  set (fp := concat (map expected_parameters filter_specs)).
  unfold membership_tests. simpl.
  destruct (iter_contains_spec k fp) as [Hb Hit].
  destruct (iter_contains k fp) as [b it] eqn:E. simpl in *.
  rewrite membership_tests_acc. simpl. rewrite <- Hb.
  destruct b; [done|]. simpl. rewrite (Hit eq_refl). apply membership_tests_exhausted.
Qed.

(** A filter on [status] is active, yet the first key is [page]. *)
Example has_active_filters_missed :
  has_active_filters [{| expected_parameters := ["status"] |}]
    (setup (view_of_query []) {| GET_pairs := [("page", "2"); ("status", "open")];
                                 POST_pairs := []; user := VNone; full_path := "/" |})
    = false
  /\ has_active_filters [{| expected_parameters := ["status"] |}]
       (setup (view_of_query []) {| GET_pairs := [("status", "open"); ("page", "2")];
                                    POST_pairs := []; user := VNone; full_path := "/" |})
     = true.
Proof. split; reflexivity. Qed.

End FilterProps.

(* ===================================================================== *)
(** * MultipleLookupMixin.get_object: every outcome                        *)
(* ===================================================================== *)
Module LookupCases.
Import Py Django ViewsMixins Descriptions ViewsExamples CasesData LookupProps.

Section Cases.
Variable db : Database.

Lemma get_object_unfold (self : View) (queryset : option QuerySet) :
  get_object db self queryset = get_object_spec db self queryset.
Proof.
  unfold get_object, get_object_spec.
  destruct (lookup_fields self) as [|f fields] eqn:Hf; [done|].
  rewrite decide_False by done.
  replace (Z.of_nat (length (f :: fields)) =? 0) with false
    by (symmetry; apply Z.eqb_neq; simpl length; lia).
  destruct (decide (lookup_url_kwarg self = None \/ lookup_url_kwarg self = Some ""))
    as [Hk|Hk].
  - by rewrite (proj2 (kwarg_unset _) Hk).
  - destruct (negb (truthy _)) eqn:Ek; [by apply kwarg_unset in Ek|].
    apply lookup_loop_first_match; [done|lia].
Qed.



(** X13.  A query set passed to [get_object] is used only if it is true:
    for an empty one the lookup runs on [self.get_queryset()], as if no
    query set had been passed. *)
Theorem get_object_empty_queryset (self : View) (q : QuerySet) :
  db_bool db q = false ->
  lookup_queryset db self (Some q) = get_queryset self
  /\ get_object db self (Some q) = get_object db self None.
Proof.
  intros Hq. unfold lookup_queryset. rewrite Hq. split; [done|].
  rewrite !get_object_unfold. unfold get_object_spec, lookup_queryset. by rewrite Hq.
Qed.

End Cases.


Lemma get_object_empty_queryset_witness :
  get_object db_drafts (view_slug ["slug"] (Some "ident") "first-post") (Some (QAll "draft"))
  = get_object db_drafts (view_slug ["slug"] (Some "ident") "first-post") None.
Proof.
  exact (proj2 (get_object_empty_queryset db_drafts
                  (view_slug ["slug"] (Some "ident") "first-post") (QAll "draft") eq_refl)).
Defined.

End LookupCases.

(* ===================================================================== *)
(** * test_func: what a returned value means                               *)
(* ===================================================================== *)
Module AuthCases.
Import Py Django AuthMixins AuthExamples.

Section Cases.
Variable py_eq : pyval -> pyval -> bool.
Variable db : Database.
Variable h : heap.

(** X14.  Whenever [test_func] returns, the value is the comparison of
    [request.user] with the user field of an object the view supplied:
    [self.object] when that is set and true, what [self.get_object()]
    returns otherwise.  A missing user field never counts as a denial: it
    makes [test_func] raise [AttributeError]. *)
Theorem test_func_returns (self : View) (b : bool) :
  test_func py_eq db h self = Ok b ->
  exists o a,
    ((object_attr self = Some o /\ truthy o = true)
     \/ (truthy (default VNone (object_attr self)) = false
         /\ get_object self = Some (Ok o)))
    /\ getattr h o (get_model_permission_user_field self) = Ok a
    /\ b = py_eq (user (request self)) a.
Proof.
  unfold test_func. intros Hb.
  destruct (truthy (default VNone (object_attr self))) eqn:Ht.
  - destruct (object_attr self) as [o|] eqn:Ho; [|done]. simpl in *.
    destruct (getattr h o _) as [a|e] eqn:Ha; [|done]. injection Hb as <-.
    exists o, a. split; [left; by split|done].
  - destruct (get_object self) as [[o|e]|] eqn:Hg.
    + simpl in *.
      destruct (getattr h o _) as [a|e] eqn:Ha; [|done]. injection Hb as <-.
      exists o, a. split; [right; by split|done].
    + done.
    + destruct (get_queryset self) as [[q|e]|]; csimpl in Hb; [|done..].
      by destruct (db_first db q).
Qed.

(** X15.  On a view whose object (the true [self.object], else what
    [self.get_object()] returns) has no attribute of the user field's
    name, [test_func] raises [AttributeError] and returns nothing. *)
Theorem test_func_missing_field (self : View) (o : pyval) :
  (object_attr self = Some o /\ truthy o = true)
  \/ (truthy (default VNone (object_attr self)) = false
      /\ get_object self = Some (Ok o)) ->
  (forall a, getattr h o (get_model_permission_user_field self) <> Ok a) ->
  test_func py_eq db h self
    = Raise (AttributeError (get_model_permission_user_field self)).
Proof.
  intros Hobj Hmissing. unfold test_func.
  assert (getattr h o (get_model_permission_user_field self)
          = Raise (AttributeError (get_model_permission_user_field self))) as Ha.
  { specialize (Hmissing). unfold getattr in *.
    destruct o as [| | | | |l]; try done.
    destruct (attrs_of h l !! _) as [a|]; [by destruct (Hmissing a)|done]. }
  destruct Hobj as [[Ho Ht]|[Ht Hg]].
  - rewrite Ho. change (default VNone (Some o)) with o. rewrite Ht. csimpl.
    unfold get_model_permission_user_field in *. by rewrite Ha.
  - rewrite Ht, Hg. csimpl. unfold get_model_permission_user_field in *. by rewrite Ha.
Qed.

End Cases.

Lemma test_func_returns_witness :
  exists o a,
    ((object_attr (view_example None (Some (VRef 3))) = Some o /\ truthy o = true)
     \/ (truthy (default VNone (object_attr (view_example None (Some (VRef 3))))) = false
         /\ get_object (view_example None (Some (VRef 3))) = Some (Ok o)))
    /\ getattr heap_example o "user" = Ok a
    /\ false = same_object (VRef 1) a.
Proof.
  exact (test_func_returns same_object db_example heap_example
           (view_example None (Some (VRef 3))) false eq_refl).
Defined.

Lemma test_func_missing_field_witness :
  test_func same_object db_example heap_example (view_example None (Some (VRef 1)))
    = Raise (AttributeError "user").
Proof.
  apply (test_func_missing_field same_object db_example heap_example
           (view_example None (Some (VRef 1))) (VRef 1)).
  - right. split; reflexivity.
  - intros a. vm_compute. discriminate.
Defined.

End AuthCases.

(* ===================================================================== *)
(** * The action decorator, applied again and read back                    *)
(* ===================================================================== *)
Module ActionCompose.
Import Py Django ViewsMixins Descriptions CasesData ActionProps.

Lemma attrs_of_setattr_eq (l : loc) (name : string) (v : pyval) (h : heap) :
  attrs_of (setattr l name v h) l = <[name := v]> (attrs_of h l).
Proof. unfold setattr. unfold attrs_of at 1. by rewrite lookup_insert_eq. Qed.

Lemma setattr_setattr (l : loc) (n1 n2 : string) (v1 v2 : pyval) (h : heap) :
  setattr l n2 v2 (setattr l n1 v1 h) = <[l := <[n2 := v2]> (<[n1 := v1]> (attrs_of h l))]> h.
Proof.
  unfold setattr at 1. rewrite attrs_of_setattr_eq. unfold setattr.
  by rewrite insert_insert_eq.
Qed.

(** The heap a decoration leaves: the function's attributes, updated. *)
Lemma decorator_heap (p d a : pyval) (f : loc) (h : heap) :
  (decorator p d a f h).2
  = <[f := <["allow_select_across" := a]>
             ((if is_none d then id else <["short_description" := d]>)
                ((if is_none p then id else <["allowed_permissions" := p]>)
                   (attrs_of h f)))]> h.
Proof.
  unfold decorator. cbn [snd].
  destruct (is_none p), (is_none d); cbn [id].
  - done.
  - by rewrite setattr_setattr.
  - by rewrite setattr_setattr.
  - unfold setattr. rewrite !insert_insert_eq.
    unfold attrs_of at 1 2. by rewrite !lookup_insert_eq.
Qed.

(** X16.  Decorating a function again is one decoration with the later
    arguments, an argument given as [None] the second time keeping what the
    first decoration wrote.  In particular a decoration repeated with the
    same arguments changes nothing more. *)
Theorem decorator_twice (p1 d1 a1 p2 d2 a2 : pyval) (f : loc) (h : heap) :
  decorator p2 d2 a2 f (decorator p1 d1 a1 f h).2
    = decorator (or_else p2 p1) (or_else d2 d1) a2 f h
  /\ decorator p1 d1 a1 f (decorator p1 d1 a1 f h).2 = decorator p1 d1 a1 f h.
Proof.
  assert (forall p1 d1 a1 p2 d2 a2,
            decorator p2 d2 a2 f (decorator p1 d1 a1 f h).2
            = decorator (or_else p2 p1) (or_else d2 d1) a2 f h) as Hcompose.
  { clear. intros p1 d1 a1 p2 d2 a2.
    rewrite (surjective_pairing (decorator p2 d2 a2 f _)).
    rewrite (surjective_pairing (decorator (or_else p2 p1) _ a2 f h)).
    f_equal. rewrite !decorator_heap. rewrite insert_insert_eq. f_equal.
    unfold attrs_of at 1. rewrite lookup_insert_eq. simpl.
    unfold or_else.
    apply map_eq. intros name.
    destruct (is_none p1) eqn:Hp1, (is_none d1) eqn:Hd1,
             (is_none p2) eqn:Hp2, (is_none d2) eqn:Hd2;
      rewrite ?Hp1, ?Hd1, ?Hp2, ?Hd2; cbn [id];
      (destruct (decide (name = "allow_select_across")) as [->|?];
         [by simplify_map_eq|]);
      (destruct (decide (name = "short_description")) as [->|?];
         [by simplify_map_eq|]);
      (destruct (decide (name = "allowed_permissions")) as [->|?];
         by simplify_map_eq). }
  split; [apply Hcompose|].
  rewrite Hcompose. unfold or_else.
  by destruct (is_none p1), (is_none d1).
Qed.

(** X17.  [can_select_across] reads back what the decorator wrote: after a
    decoration with a flag it gives that flag for the decorated function,
    and what it gave before for every other function; for a function no
    decoration touched it gives [False]. *)
Theorem can_select_across_decorated (p d flag : pyval) (f : loc) (h : heap)
    (request : HttpRequest) :
  let h' := (decorator p d flag f h).2 in
  can_select_across h' request f = flag
  /\ (forall g, g <> f -> can_select_across h' request g = can_select_across h request g)
  /\ (forall g, attrs_of h g !! "allow_select_across" = None ->
        can_select_across h request g = VBool false).
Proof.
  intros h'. subst h'. unfold can_select_across, getattr_default, getattr.
  split; [|split].
  - rewrite decorator_heap. unfold attrs_of. rewrite lookup_insert_eq. simpl.
    by rewrite lookup_insert_eq.
  - intros g Hg. rewrite decorator_heap. unfold attrs_of.
    by rewrite lookup_insert_ne.
  - intros g Hg. by rewrite Hg.
Qed.

End ActionCompose.

(* ===================================================================== *)
(** * [build_query_string]: one text for one set of parameters             *)
(* ===================================================================== *)
Module QueryStringCanonical.
Import Py Django UrlTools Descriptions ViewsExamples CasesData PyProps DjangoProps UrlToolsProps.

Lemma ltb_asym (a b : string) :
  String.ltb a b = true -> String.ltb b a = true -> False.
Proof.
  unfold String.ltb. rewrite (String.compare_antisym a b).
  by destruct (String.compare b a).
Qed.

Lemma strictly_sorted_NoDup (l : list (string * pyval)) :
  StronglySorted (fun a b => String.ltb a.1 b.1 = true) l -> NoDup l.
Proof.
  induction 1 as [|a l Hl IH Ha]; constructor; [|done].
  intros Hin. rewrite Forall_forall in Ha. specialize (Ha _ Hin).
  by eapply ltb_asym.
Qed.

(** Strictly sorted lists with the same members are the same list. *)
Lemma strictly_sorted_unique (l1 l2 : list (string * pyval)) :
  StronglySorted (fun a b => String.ltb a.1 b.1 = true) l1 ->
  StronglySorted (fun a b => String.ltb a.1 b.1 = true) l2 ->
  (forall x, x ∈ l1 <-> x ∈ l2) -> l1 = l2.
Proof.
  intros H1 H2 Hmem.
  apply (StronglySorted_unique_strong _ _ _ (fun x1 x2 _ _ Ha Hb =>
           False_ind (x1 = x2) (ltb_asym _ _ Ha Hb)) H1 H2).
  apply NoDup_Permutation; auto using strictly_sorted_NoDup.
Qed.

Section Canonical.
Variable py_str : pyval -> string.

(** The pairs [urlencode] is given. *)
Local Abbreviation pairs_of request params :=
  (sorted item_le
     (items (foldl apply_param
               match request with Some r => copy (GET r) | None => [] end
               params))).

Lemma build_query_string_pairs (request : option HttpRequest)
    (params : list (string * pyval)) :
  build_query_string py_str request params
    = Ok (join "&" (encode_pair py_str <$> pairs_of request params))
  /\ StronglySorted (fun a b => String.ltb a.1 b.1 = true) (pairs_of request params)
  /\ forall k v, (k, v) ∈ pairs_of request params
                 <-> merged_params request params k = Some v.
Proof.
  set (p0 := match request with Some r => copy (GET r) | None => [] end).
  set (p := foldl apply_param p0 params).
  assert (well_formed p0) as Hp0.
  { destruct request; [apply well_formed_GET|apply well_formed_nil]. }
  assert (well_formed p) as Hp by by apply well_formed_foldl.
  split; [|split].
  - unfold build_query_string, urlencode. fold p0. fold p.
    rewrite check_no_none_ok; [done|].
    rewrite sorted_perm. by apply items_not_none.
  - apply sorted_items_strict. rewrite items_keys. apply Hp.
  - intros k v. rewrite sorted_perm, elem_of_items by apply Hp.
    unfold p, merged_params. rewrite (shown_foldl _ _ (request_params request)); [done|].
    intros x. unfold p0. destruct request; [apply shown_GET|done].
Qed.

(** X18.  The text [build_query_string] returns depends only on the merged
    parameters: two calls whose merged parameters give every key the same
    value return the same text, in whatever order the request listed its
    parameters, whichever values a repeated key had before its last one,
    and in whatever order the keyword parameters were given. *)
Theorem build_query_string_canonical (r1 r2 : option HttpRequest)
    (p1 p2 : list (string * pyval)) :
  (forall k, merged_params r1 p1 k = merged_params r2 p2 k) ->
  build_query_string py_str r1 p1 = build_query_string py_str r2 p2.
Proof.
  intros Hsame.
  destruct (build_query_string_pairs r1 p1) as (-> & Hs1 & Hm1).
  destruct (build_query_string_pairs r2 p2) as (-> & Hs2 & Hm2).
  do 3 f_equal. apply strictly_sorted_unique; [done..|].
  intros [k v]. by rewrite Hm1, Hm2, Hsame.
Qed.

End Canonical.

Lemma build_query_string_canonical_witness :
  build_query_string str_example
    (Some (request_of [("b", "1"); ("a", "x"); ("b", "2")])) [("c", VInt 3)]
  = build_query_string str_example
      (Some (request_of [("a", "x"); ("b", "2"); ("d", "4")])) [("d", VNone); ("c", VInt 3)].
Proof.
  apply build_query_string_canonical. intros k.
  destruct (decide (k = "a")) as [->|Ha]; [reflexivity|].
  destruct (decide (k = "b")) as [->|Hb]; [reflexivity|].
  destruct (decide (k = "c")) as [->|Hc]; [reflexivity|].
  destruct (decide (k = "d")) as [->|Hd]; [reflexivity|].
  unfold merged_params, merge_param, request_params, param_value.
  cbn [foldl fst snd GET_pairs request_of].
  rewrite !decide_False by done.
  rewrite !filter_cons_False by (cbn; congruence). done.
Defined.

End QueryStringCanonical.
